(** * Verification of the linear SVM command-line program

    A shallow embedding of [src/mlpack/methods/linear_svm/linear_svm_main.cpp]:
    the parameter validation, the label bookkeeping, the dispatch to the
    optimizers, the test-set accuracy report and the class-count helper
    [NumberOfClasses]. *)

From Stdlib Require Import ZArith NArith QArith Floats.SpecFloat Lia.
From stdpp Require Import base strings list gmap sets pretty.

Local Open Scope N_scope.

(** ** Machine types *)

(** [size_t] and [arma::uword] are unsigned 64-bit integers. *)
Abbreviation size_t := N (only parsing).

Definition wrap64 (x : N) : size_t := x mod 2 ^ 64.

(** The cast [(size_t) x] of an [int]. *)
Definition size_t_of_int (x : Z) : size_t := Z.to_N (x mod 2 ^ 64).

(** [double] values, as IEEE-754 binary64 data. *)
Abbreviation double := spec_float (only parsing).

Definition d_zero : double := S754_zero false.

(** [x >= 0.0] on [double]. *)
Definition ge_zero (x : double) : bool := SFleb d_zero x.

(** [x < 0.0] on [double]. *)
Definition negative (x : double) : bool := SFltb x d_zero.

(** ** The class-count helper *)

(** [NumberOfClasses]: a zero [numClasses] is replaced by the size of the
    [std::set] built from the labels. *)
Definition NumberOfClasses (numClasses : size_t) (labels : list size_t)
  : size_t :=
  if numClasses =? 0 then
    let unique_labels : gset N := list_to_set labels in
    N.of_nat (size unique_labels)
  else numClasses.

(** The number of distinct values of a label vector, as the specification
    words it. *)
Definition distinct_values (labels : list size_t) : N :=
  N.of_nat (length (remove_dups labels)).

(** ** Matrices and label rows *)

(** An [arma::mat]: the column count is kept beside the rows, since a
    matrix without rows still has one. *)
Record mat : Type := Mat { n_cols : nat; mat_rows : list (list double) }.

Definition n_rows (m : mat) : nat := length (mat_rows m).

(** A default-constructed matrix is 0 x 0. *)
Definition empty_mat : mat := Mat 0 [].

(** [m.row(i)]. *)
Definition row (m : mat) (i : nat) : list double :=
  default [] (mat_rows m !! i).

(** [m.shed_row(i)]. *)
Definition shed_row (m : mat) (i : nat) : mat :=
  Mat (n_cols m) (delete i (mat_rows m)).

(** ** Collaborators declared outside this file *)

(** Modelled from the spec: the [LinearSVM] class of [linear_svm.hpp], which
    "holds regularization strength, margin parameter, intercept flag, class
    count, and learned parameter matrix". *)
Record LinearSVM : Type := {
  Lambda : double;
  Delta : double;
  FitIntercept : bool;
  NumClasses : size_t;
  Parameters : mat
}.

(** The two optimizers, with the settings this program gives them. *)
Inductive Optimizer : Type :=
| L_BFGS (MaxIterations : size_t) (MinGradientNorm : double)
| ParallelSGD (maxIterations threadShareSize : size_t) (tolerance : double)
    (shuffle : bool) (stepSize : double).

(** ** Command-line parameters *)

(** A parameter that was not passed is [None] (a flag: [false]);
    [CLI::HasParam] asks whether it was passed, [CLI::GetParam] yields the
    value or the declared default. *)
Record Params : Type := {
  training : option mat;
  labels : option (list size_t);
  lambda : option double;
  delta : option double;
  number_of_classes : option Z;
  no_intercept : bool;
  optimizer : option string;
  tolerance : option double;
  max_iterations : option Z;
  step_size : option double;
  shuffle : bool;
  input_model : option LinearSVM;
  output_model : bool;
  test : option mat;
  test_labels : option (list size_t);
  predictions : bool;
  score : bool
}.

(** The defaults of the [PARAM_*_IN] declarations: 0.0001, 1.0, 1e-10 and
    0.01 as binary64 values. *)
Definition default_lambda : double := S754_finite false 7378697629483821 (-66).
Definition default_delta : double := S754_finite false 4503599627370496 (-52).
Definition default_tolerance : double :=
  S754_finite false 7737125245533627 (-86).
Definition default_step_size : double :=
  S754_finite false 5764607523034235 (-59).

Definition get_lambda (p : Params) : double := default default_lambda (lambda p).
Definition get_delta (p : Params) : double := default default_delta (delta p).
Definition get_number_of_classes (p : Params) : Z :=
  default 0%Z (number_of_classes p).
Definition get_optimizer (p : Params) : string :=
  default "lbfgs"%string (optimizer p).
Definition get_tolerance (p : Params) : double :=
  default default_tolerance (tolerance p).
Definition get_max_iterations (p : Params) : Z :=
  default 10000%Z (max_iterations p).
Definition get_step_size (p : Params) : double :=
  default default_step_size (step_size p).

(** ** Log output, fatal errors and the outcome of a run *)

(** The value of [a / static_cast<double>(b)] for two unsigned counts:
    0/0 is NaN, x/0 with x > 0 is +infinity, otherwise the quotient.
    Rounding to binary64 is left out: the finite case holds the exact
    rational. *)
Inductive quotient : Type :=
| NaN
| PosInf
| Quot (q : Q).

Definition fdiv (a b : size_t) : quotient :=
  if b =? 0 then (if a =? 0 then NaN else PosInf)
  else Quot (Z.of_N a # N.succ_pos (N.pred b)).

(** Membership in the closed interval [0,1]. *)
Definition in_unit (x : quotient) : Prop :=
  match x with
  | Quot q => (0 <= q)%Q /\ (q <= 1)%Q
  | _ => False
  end.

Inductive warning : Type :=
| WarnNoOutput                    (* "no output will be saved" *)
| WarnIgnored (param : string)    (* ReportIgnoredParam *)
| WarnNotPsgd (param : string)    (* "... ignored because optimizer type is not 'psgd'." *)
| WarnParam (name errorMessage : string).

Inductive info : Type :=
| InfoTrainLBFGS
| InfoTrainPSGD
| InfoScore
| InfoAccuracy (label bingo size : size_t) (accuracy : quotient)
| InfoTotal (totalBingo n_elem : size_t) (accuracy : quotient)
| InfoPredicting.

(** What a run leaves behind in order: log lines, and the calls into the
    model. *)
Inductive event : Type :=
| Warn (w : warning)
| Info (i : info)
| CallTrain (data : mat) (labels : list size_t) (numClasses : size_t)
    (opt : Optimizer)
| CallClassifyScore (data : mat)
| CallClassify (data : mat).

(** The texts written to [Log::Fatal]. *)
Inductive fatal : Type :=
| FatalNonePassed
| FatalParam (name errorMessage : string)
| FatalLabels
| FatalRows
| FatalOpenMP
| FatalTestDim (test_rows trainingDimensionality : size_t)
| FatalTestLabels (points labels : size_t).

Definition fatal_message (f : fatal) : string :=
  match f with
  | FatalNonePassed =>
      "Must pass one of 'training' or 'input_model'!"
  | FatalParam name errorMessage =>
      "Invalid value of '" +:+ name +:+ "' specified; " +:+ errorMessage +:+ "!"
  | FatalLabels =>
      "The labels must have the same number of points as the training dataset."
  | FatalRows =>
      "Can't get labels from training data since it has less than 2 rows."
  | FatalOpenMP => "OpenMP is not specified cannot use ParallelSGD"
  | FatalTestDim r d =>
      "Test data dimensionality (" +:+ pretty r +:+ ") must be the same as "
      +:+ "the dimensionality of the training data (" +:+ pretty d +:+ ")!"
  | FatalTestLabels c n =>
      "Test data given with 'test' has " +:+ pretty c +:+ " points, but "
      +:+ "labels in 'test_labels' have " +:+ pretty n +:+ " labels!"
  end%string.

(** A run ends normally, or in [Log::Fatal], or in an access past the end
    of an array. *)
Inductive result (A : Type) : Type :=
| Ok (a : A)
| Fatal (f : fatal)
| OutOfBounds.
Arguments Ok {A} a.
Arguments Fatal {A} f.
Arguments OutOfBounds {A}.

(** Computations that write events and may stop early. *)
Definition M (A : Type) : Type := list event * result A.

#[global] Instance M_ret : MRet M := fun A a => ([], Ok a).

#[global] Instance M_bind : MBind M := fun A B k m =>
  match m with
  | (log, Ok a) => let '(log', r) := k a in (log ++ log', r)
  | (log, Fatal f) => (log, Fatal f)
  | (log, OutOfBounds) => (log, OutOfBounds)
  end.

(** A line of log output, or a call into the model. *)
Definition emit (e : event) : M unit := ([e], Ok tt).

(** [Log::Fatal << ... << endl]: the run stops there ("terminate the
    process with a descriptive message; no recovery or retry"). *)
Definition die {A} (f : fatal) : M A := ([], Fatal f).
Definition when (b : bool) (m : M unit) : M unit :=
  if b then m else mret tt.

Definition log_of {A} (m : M A) : list event := fst m.
Definition outcome {A} (m : M A) : result A := snd m.

(** [CLI::HasParam]. *)
Definition HasParam {A} (o : option A) : bool :=
  match o with Some _ => true | None => false end.

(** ** The parameter checks of [mlpack/core/util/param_checks.hpp] *)

(** The bodies of [RequireAtLeastOnePassed], [RequireParamValue],
    [RequireParamInSet] and [ReportIgnoredParam] are not among the sources
    at hand; the four definitions below follow the specification: "All
    detected invalid states (mismatched dimensions, out-of-range parameters,
    unknown optimizer name) terminate the process with a descriptive
    message; no recovery or retry". *)

(** Modelled from the spec: [RequireAtLeastOnePassed] of [param_checks.hpp].
    When none of the named parameters was passed, the call with
    [fatal = true] writes to [Log::Fatal], the one with [fatal = false]
    only warns. *)
Definition RequireAtLeastOnePassed (passed : list bool) (fatal : bool)
    (w : warning) : M unit :=
  if existsb id passed then mret tt
  else if fatal then die FatalNonePassed else emit (Warn w).

(** Modelled from the spec: [RequireParamValue] of [param_checks.hpp].  A
    value that fails [conditional] is an out-of-range parameter: fatal when
    [fatal = true], a warning otherwise. *)
Definition RequireParamValue {T} (name : string) (value : T)
    (conditional : T -> bool) (fatal : bool) (errorMessage : string) : M unit :=
  if conditional value then mret tt
  else if fatal then die (FatalParam name errorMessage)
  else emit (Warn (WarnParam name errorMessage)).

(** Modelled from the spec: [RequireParamInSet] of [param_checks.hpp].  A
    value outside [set] (the unknown optimizer name) is fatal when
    [fatal = true], a warning otherwise. *)
Definition RequireParamInSet (name : string) (value : string)
    (set : list string) (fatal : bool) (errorMessage : string) : M unit :=
  if bool_decide (value ∈ set) then mret tt
  else if fatal then die (FatalParam name errorMessage)
  else emit (Warn (WarnParam name errorMessage)).

(** Modelled from the spec: [ReportIgnoredParam] of [param_checks.hpp],
    which never ends the run.  [constraints] pairs, for each named
    parameter, whether it was passed with the value the constraint expects;
    when all of them hold and [paramName] was passed, a warning says that it
    is ignored. *)
Definition ReportIgnoredParam (constraints : list (bool * bool))
    (paramName : string) (passed : bool) : M unit :=
  when (passed && forallb (fun c => eqb c.1 c.2) constraints)
       (emit (Warn (WarnIgnored paramName))).

(** ** The accuracy report *)

(** [++v[i]] on a [std::vector<size_t>]; [None] past the end. *)
Definition vec_incr (v : list size_t) (i : size_t) : option (list size_t) :=
  x ← v !! N.to_nat i;
  Some (<[N.to_nat i := wrap64 (x + 1)]> v).

(** The counting loop over [i = 0 .. predictions.n_elem - 1], entered at
    index [i] with [ps] the predictions still to visit. *)
Fixpoint tally_from (i : nat) (ps : list size_t) (testLabels : list size_t)
    (st : list size_t * list size_t) : option (list size_t * list size_t) :=
  match ps with
  | [] => Some st
  | p :: ps' =>
      l ← testLabels !! i;
      bingoLabels ← (if p =? l then vec_incr st.1 l else Some st.1);
      labelSize ← vec_incr st.2 l;
      tally_from (S i) ps' testLabels (bingoLabels, labelSize)
  end.

Definition tally (numClasses : size_t) (predictions testLabels : list size_t)
  : option (list size_t * list size_t) :=
  let bingoLabels := replicate (N.to_nat numClasses) 0 in
  let labelSize := replicate (N.to_nat numClasses) 0 in
  tally_from 0 predictions testLabels (bingoLabels, labelSize).

(** The reporting loop over [i = 0 .. bingoLabels.size() - 1], entered at
    index [i] with [bs] the entries of [bingoLabels] still to visit. *)
Fixpoint report_from (i : nat) (bs : list size_t) (labelSize : list size_t)
    (totalBingo : size_t) : option (list event * size_t) :=
  match bs with
  | [] => Some ([], totalBingo)
  | b :: bs' =>
      s ← labelSize !! i;
      r ← report_from (S i) bs' labelSize (wrap64 (totalBingo + b));
      Some (Info (InfoAccuracy (N.of_nat i) b s (fdiv b s)) :: r.1, r.2)
  end.

Definition accuracy (numClasses : size_t)
    (predictions testLabels : list size_t) : M unit :=
  match tally numClasses predictions testLabels with
  | None => ([], OutOfBounds)
  | Some (bingoLabels, labelSize) =>
      match report_from 0 bingoLabels labelSize 0 with
      | None => ([], OutOfBounds)
      | Some (lines, totalBingo) =>
          let n_elem := N.of_nat (length predictions) in
          (lines ++ [Info (InfoTotal totalBingo n_elem
                             (fdiv totalBingo n_elem))], Ok tt)
      end
  end.

(** ** The program *)

(** What a finished run hands back through its output parameters. *)
Record Outputs : Type := {
  out_model : LinearSVM;
  out_predictions : option (list size_t);
  out_score : option mat
}.

(** [n - 1] on [arma::uword]. *)
Definition uword_pred (n : nat) : size_t := wrap64 (N.of_nat n + (2 ^ 64 - 1)).

Section Main.

(** Armadillo's element conversion [conv_to<Row<size_t>>::from]. *)
Variable conv_to_size_t : double -> size_t.

(** [new LinearSVM<>], and the members [Train] and [Classify] (labels, or
    scores) of the model. *)
Variable default_model : LinearSVM.
Variable Train :
  LinearSVM -> mat -> list size_t -> size_t -> Optimizer -> LinearSVM.
Variable Classify : LinearSVM -> mat -> list size_t.
Variable ClassifyScores : LinearSVM -> mat -> mat.

(** Whether the build has OpenMP, and the share of the points each thread
    gets, [ceil((float) n_cols / omp_get_max_threads())]. *)
Variable HAS_OPENMP : bool.
Variable threadShareSize : nat -> size_t.

(** Lines 164-217: the checks on the parameters. *)
Definition validate (p : Params) : M unit :=
  RequireAtLeastOnePassed
    [HasParam (training p); HasParam (input_model p)] true WarnNoOutput;;
  RequireAtLeastOnePassed
    [output_model p; predictions p; score p] false WarnNoOutput;;
  ReportIgnoredParam [(HasParam (test p), false)] "predictions"
    (predictions p);;
  ReportIgnoredParam [(HasParam (test p), false)] "score" (score p);;
  ReportIgnoredParam [(HasParam (test p), false)] "test_labels"
    (HasParam (test_labels p));;
  RequireParamValue "max_iterations" (get_max_iterations p)
    (fun x => (x >=? 0)%Z) true "max_iterations must be positive or zero";;
  RequireParamValue "tolerance" (get_tolerance p) ge_zero true
    "tolerance must be positive or zero";;
  RequireParamInSet "optimizer" (get_optimizer p) ["lbfgs"; "psgd"]%string
    true "unknown optimizer";;
  RequireParamValue "lambda" (get_lambda p) ge_zero true
    "lambda must be positive or zero";;
  RequireParamValue "number_of_classes" (get_number_of_classes p)
    (fun x => (x >=? 0)%Z) true
    ("number of classes must be greater than or "
     +:+ "equal to 0 (equal to 0 in case of unspecified.)");;
  RequireParamValue "delta" (get_delta p) ge_zero true
    "Margin of difference between correct class and other classes";;
  RequireParamValue "step_size" (get_step_size p) ge_zero true
    "step size must be positive";;
  when (negb (String.eqb (get_optimizer p) "psgd"))
    (when (HasParam (step_size p)) (emit (Warn (WarnNotPsgd "step_size")));;
     when (shuffle p) (emit (Warn (WarnNotPsgd "shuffle")))).

(** Lines 238-261: the labels come from their own parameter, or from the
    last row of the training matrix. *)
Definition load_labels (p : Params) (trainingSet : mat)
  : M (mat * list size_t) :=
  if HasParam (training p) && HasParam (labels p) then
    let labels := default [] (labels p) in
    when (negb (n_cols trainingSet =? length labels)%nat) (die FatalLabels);;
    mret (trainingSet, labels)
  else if HasParam (training p) then
    when (n_rows trainingSet <? 2)%nat (die FatalRows);;
    let labels :=
      conv_to_size_t <$> row trainingSet (n_rows trainingSet - 1) in
    mret (shed_row trainingSet (n_rows trainingSet - 1), labels)
  else mret (trainingSet, []).

(** Lines 267-309: the training. *)
Definition train (p : Params) (model : LinearSVM) (trainingSet : mat)
    (labels : list size_t) (numClasses : size_t) : M LinearSVM :=
  let maxIterations := size_t_of_int (get_max_iterations p) in
  if HasParam (training p) then
    let model :=
      {| Lambda := get_lambda p;
         Delta := get_delta p;
         FitIntercept := negb (no_intercept p);
         NumClasses := numClasses;
         Parameters := Parameters model |} in
    if String.eqb (get_optimizer p) "lbfgs" then
      let lbfgsOpt := L_BFGS maxIterations (get_tolerance p) in
      emit (Info InfoTrainLBFGS);;
      emit (CallTrain trainingSet labels numClasses lbfgsOpt);;
      mret (Train model trainingSet labels numClasses lbfgsOpt)
    else if HAS_OPENMP then
      if String.eqb (get_optimizer p) "psgd" then
        let psgdOpt :=
          ParallelSGD maxIterations (threadShareSize (n_cols trainingSet))
            (get_tolerance p) (negb (shuffle p)) (get_step_size p) in
        emit (Info InfoTrainPSGD);;
        emit (CallTrain trainingSet labels numClasses psgdOpt);;
        mret (Train model trainingSet labels numClasses psgdOpt)
      else mret model
    else die FatalOpenMP
  else mret model.

(** Lines 310-385: classification of the test set and the accuracy. *)
Definition classify_test (p : Params) (model : LinearSVM)
    (numClasses : size_t) : M (option (list size_t) * option mat) :=
  match test p with
  | None => mret (None, None)
  | Some testSet =>
      let trainingDimensionality := uword_pred (n_rows (Parameters model)) in
      when (negb (N.of_nat (n_rows testSet) =? trainingDimensionality))
        (die (FatalTestDim (N.of_nat (n_rows testSet))
                trainingDimensionality));;
      score ← (if score p then
                 emit (Info InfoScore);;
                 emit (CallClassifyScore testSet);;
                 mret (Some (ClassifyScores model testSet))
               else mret None);
      let savePredictions := predictions p in
      emit (CallClassify testSet);;
      let predictions := Classify model testSet in
      match test_labels p with
      | Some testLabels =>
          when (negb (n_cols testSet =? length testLabels)%nat)
            (die (FatalTestLabels (N.of_nat (n_cols testSet))
                    (N.of_nat (length testLabels))));;
          accuracy numClasses predictions testLabels
      | None => mret tt
      end;;
      if savePredictions then
        emit (Info InfoPredicting);;
        mret (Some predictions, score)
      else mret (None, score)
  end.

(** The class count the program works with. *)
Definition derived_numClasses (p : Params) (labels : list size_t) : size_t :=
  NumberOfClasses (size_t_of_int (get_number_of_classes p)) labels.

(** Lines 219-387: everything after the checks on the parameters. *)
Definition run (p : Params) : M Outputs :=
  let trainingSet := default empty_mat (training p) in
  let model := default default_model (input_model p) in
  tl ← load_labels p trainingSet;
  let numClasses := derived_numClasses p tl.2 in
  model ← train p model tl.1 tl.2 numClasses;
  ps ← classify_test p model numClasses;
  mret {| out_model := model; out_predictions := ps.1; out_score := ps.2 |}.

Definition mlpackMain (p : Params) : M Outputs :=
  validate p;; run p.

End Main.

(** ** What the accuracy report is meant to count *)

(** How many entries of a list satisfy a test. *)
Fixpoint count {A} (f : A -> bool) (l : list A) : N :=
  match l with
  | [] => 0
  | x :: l' => (if f x then 1 else 0) + count f l'
  end.

(** Over the (prediction, label) pairs of a test set: the points of class
    [c] predicted correctly, the points of class [c], and the points
    predicted correctly. *)
Definition hit_count (c : size_t) (pl : list (size_t * size_t)) : N :=
  count (fun x => (x.1 =? x.2) && (x.2 =? c)) pl.

Definition label_count (c : size_t) (pl : list (size_t * size_t)) : N :=
  count (fun x => x.2 =? c) pl.

Definition match_count (pl : list (size_t * size_t)) : N :=
  count (fun x => x.1 =? x.2) pl.

(** The class ids [0 .. n-1]. *)
Definition classes (n : size_t) : list size_t :=
  N.of_nat <$> seq 0 (N.to_nat n).

Definition sumN (l : list N) : N := foldr N.add 0 l.

(** The two counter arrays the counting loop is meant to end with. *)
Definition tally_spec (numClasses : size_t) (pl : list (size_t * size_t))
  : option (list size_t * list size_t) :=
  if forallb (fun x => x.2 <? numClasses) pl then
    Some ((fun c => wrap64 (hit_count c pl)) <$> classes numClasses,
          (fun c => wrap64 (label_count c pl)) <$> classes numClasses)
  else None.

(** The per-class lines of the report, for counts that did not wrap. *)
Definition class_lines (numClasses : size_t) (pl : list (size_t * size_t))
  : list event :=
  (fun c => Info (InfoAccuracy c (hit_count c pl) (label_count c pl)
                    (fdiv (hit_count c pl) (label_count c pl))))
    <$> classes numClasses.

(** The accuracy figures a list of events reports. *)
Definition reported (e : event) : option quotient :=
  match e with
  | Info (InfoAccuracy _ _ _ a) => Some a
  | Info (InfoTotal _ _ a) => Some a
  | _ => None
  end.

(** ** Classes of events *)

Definition is_warn (e : event) : bool :=
  match e with Warn _ => true | _ => false end.

Definition is_train (e : event) : bool :=
  match e with CallTrain _ _ _ _ => true | _ => false end.

Definition is_classify (e : event) : bool :=
  match e with
  | CallClassify _ | CallClassifyScore _ => true
  | _ => false
  end.

Definition is_accuracy (e : event) : bool :=
  match e with
  | Info (InfoAccuracy _ _ _ _) | Info (InfoTotal _ _ _) => true
  | _ => false
  end.

Definition is_fatal {A} (r : result A) : bool :=
  match r with Fatal _ => true | _ => false end.

(** A run without its warnings. *)
Definition drop_warnings (log : list event) : list event :=
  filter (fun e => negb (is_warn e)) log.

(** ** A small model class, for running the program on concrete inputs *)

(** Conversion of a [double] to an unsigned integer: truncation, with
    everything that is not positive sent to 0. *)
Definition toy_conv (x : double) : size_t :=
  match x with
  | S754_finite false m e =>
      match e with
      | Z0 => Npos m
      | Zpos k => Npos m * 2 ^ Npos k
      | Zneg k => Npos m / 2 ^ Npos k
      end
  | _ => 0
  end.

Definition toy_default_model : LinearSVM :=
  {| Lambda := default_lambda; Delta := default_delta; FitIntercept := false;
     NumClasses := 0; Parameters := empty_mat |}.

(** Training leaves a parameter matrix with one row per feature, and one
    for the intercept. *)
Definition toy_Train (m : LinearSVM) (data : mat) (labels : list size_t)
    (numClasses : size_t) (opt : Optimizer) : LinearSVM :=
  {| Lambda := Lambda m; Delta := Delta m; FitIntercept := FitIntercept m;
     NumClasses := numClasses;
     Parameters := Mat (N.to_nat numClasses)
                     (replicate (S (n_rows data))
                        (replicate (N.to_nat numClasses) d_zero)) |}.

Definition toy_Classify (m : LinearSVM) (data : mat) : list size_t :=
  replicate (n_cols data) 0.

Definition toy_ClassifyScores (m : LinearSVM) (data : mat) : mat :=
  Mat (n_cols data)
    (replicate (n_cols (Parameters m)) (replicate (n_cols data) d_zero)).

Definition toy_main (openmp : bool) : Params -> M Outputs :=
  mlpackMain toy_conv toy_default_model toy_Train toy_Classify
    toy_ClassifyScores openmp N.of_nat.

(** Binary64 one, two and minus one. *)
Definition d_one : double := S754_finite false 4503599627370496 (-52).
Definition d_two : double := S754_finite false 4503599627370496 (-51).
Definition d_minus_one : double := S754_finite true 4503599627370496 (-52).

(** A run that passes nothing. *)
Definition no_params : Params :=
  {| training := None; labels := None; lambda := None; delta := None;
     number_of_classes := None; no_intercept := false; optimizer := None;
     tolerance := None; max_iterations := None; step_size := None;
     shuffle := false; input_model := None; output_model := false;
     test := None; test_labels := None; predictions := false;
     score := false |}.

(** ** Concrete inputs *)

(** A model trained on two features and two classes: three parameter
    rows. *)
Definition toy_model3 : LinearSVM :=
  toy_Train toy_default_model (Mat 1 [[d_one]; [d_two]]) [0] 2 (L_BFGS 0 d_zero).

(** One test point with two features. *)
Definition test21 : mat := Mat 1 [[d_one]; [d_two]].

(** Two training points with one feature, and their labels 0 and 1 as the
    last row. *)
Definition train22 : mat := Mat 2 [[d_one; d_two]; [d_zero; d_one]].

(** A saved model, a test point and its label. *)
Definition p_model_test : Params :=
  {| training := None; labels := None; lambda := None; delta := None;
     number_of_classes := None; no_intercept := false; optimizer := None;
     tolerance := None; max_iterations := None; step_size := None;
     shuffle := false; input_model := Some toy_model3; output_model := false;
     test := Some test21; test_labels := Some [0]; predictions := false;
     score := false |}.

(** The same with two test labels for the one test point. *)
Definition p_model_test_labels2 : Params :=
  {| training := None; labels := None; lambda := None; delta := None;
     number_of_classes := None; no_intercept := false; optimizer := None;
     tolerance := None; max_iterations := None; step_size := None;
     shuffle := false; input_model := Some toy_model3; output_model := false;
     test := Some test21; test_labels := Some [0; 1]; predictions := false;
     score := false |}.

(** Training on [train22] with every option at its default. *)
Definition p_train : Params :=
  {| training := Some train22; labels := None; lambda := None; delta := None;
     number_of_classes := None; no_intercept := false; optimizer := None;
     tolerance := None; max_iterations := None; step_size := None;
     shuffle := false; input_model := None; output_model := true;
     test := None; test_labels := None; predictions := false;
     score := false |}.

(** The same with a zero step size and the shuffle flag. *)
Definition p_train_step0 : Params :=
  {| training := Some train22; labels := None; lambda := None; delta := None;
     number_of_classes := None; no_intercept := false; optimizer := None;
     tolerance := None; max_iterations := None; step_size := Some d_zero;
     shuffle := true; input_model := None; output_model := true;
     test := None; test_labels := None; predictions := false;
     score := false |}.

(** The same with a negative step size. *)
Definition p_train_step_neg : Params :=
  {| training := Some train22; labels := None; lambda := None; delta := None;
     number_of_classes := None; no_intercept := false; optimizer := None;
     tolerance := None; max_iterations := None; step_size := Some d_minus_one;
     shuffle := false; input_model := None; output_model := true;
     test := None; test_labels := None; predictions := false;
     score := false |}.

(** [train22] with a labels vector of one entry. *)
Definition p_train_one_label : Params :=
  {| training := Some train22; labels := Some [0]; lambda := None;
     delta := None; number_of_classes := None; no_intercept := false;
     optimizer := None; tolerance := None; max_iterations := None;
     step_size := None; shuffle := false; input_model := None;
     output_model := true; test := None; test_labels := None;
     predictions := false; score := false |}.

(** [train22] with an optimizer that does not exist. *)
Definition p_train_sgd : Params :=
  {| training := Some train22; labels := None; lambda := None; delta := None;
     number_of_classes := None; no_intercept := false;
     optimizer := Some "sgd"%string; tolerance := None;
     max_iterations := None; step_size := None; shuffle := false;
     input_model := None; output_model := true; test := None;
     test_labels := None; predictions := false; score := false |}.

(** [train22] with a negative regularization. *)
Definition p_train_lambda_neg : Params :=
  {| training := Some train22; labels := None; lambda := Some d_minus_one;
     delta := None; number_of_classes := None; no_intercept := false;
     optimizer := None; tolerance := None; max_iterations := None;
     step_size := None; shuffle := false; input_model := None;
     output_model := true; test := None; test_labels := None;
     predictions := false; score := false |}.

(** [train22] with every checked parameter at zero. *)
Definition p_train_zeros : Params :=
  {| training := Some train22; labels := None; lambda := Some d_zero;
     delta := Some d_zero; number_of_classes := Some 0%Z;
     no_intercept := false; optimizer := None; tolerance := Some d_zero;
     max_iterations := Some 0%Z; step_size := Some d_zero; shuffle := false;
     input_model := None; output_model := true; test := None;
     test_labels := None; predictions := false; score := false |}.

(** [train22] with five classes asked for. *)
Definition p_train_classes5 : Params :=
  {| training := Some train22; labels := None; lambda := None; delta := None;
     number_of_classes := Some 5%Z; no_intercept := false; optimizer := None;
     tolerance := None; max_iterations := None; step_size := None;
     shuffle := false; input_model := None; output_model := true;
     test := None; test_labels := None; predictions := false;
     score := false |}.

(** A training matrix of one row, and no labels. *)
Definition p_train_one_row : Params :=
  {| training := Some (Mat 2 [[d_one; d_two]]); labels := None;
     lambda := None; delta := None; number_of_classes := None;
     no_intercept := false; optimizer := None; tolerance := None;
     max_iterations := None; step_size := None; shuffle := false;
     input_model := None; output_model := true; test := None;
     test_labels := None; predictions := false; score := false |}.

(** ** Vocabulary for the statements *)

(** The parameters pass every fatal check of [validate]. *)
Definition valid (p : Params) : bool :=
  (HasParam (training p) || HasParam (input_model p))
  && (get_max_iterations p >=? 0)%Z
  && ge_zero (get_tolerance p)
  && bool_decide (get_optimizer p ∈ ["lbfgs"; "psgd"]%string)
  && ge_zero (get_lambda p)
  && (get_number_of_classes p >=? 0)%Z
  && ge_zero (get_delta p)
  && ge_zero (get_step_size p).

(** A computation that only warns, and ends normally exactly when [c]
    holds, fatally otherwise. *)
Definition checked (c : bool) (m : M unit) : Prop :=
  exists ws, Forall (fun e => is_warn e) ws
    /\ if c then m = (ws, Ok tt) else exists f, m = (ws, Fatal f).

(** Two computations that differ in their warnings at most. *)
Definition same_but_warnings {A} (m m' : M A) : Prop :=
  drop_warnings (log_of m) = drop_warnings (log_of m')
  /\ outcome m = outcome m'.

(** Two parameter sets that differ in [step_size] and [shuffle] at most. *)
Definition same_but_step_shuffle (p p' : Params) : Prop :=
  training p = training p' /\ labels p = labels p' /\ lambda p = lambda p'
  /\ delta p = delta p' /\ number_of_classes p = number_of_classes p'
  /\ no_intercept p = no_intercept p' /\ optimizer p = optimizer p'
  /\ tolerance p = tolerance p' /\ max_iterations p = max_iterations p'
  /\ input_model p = input_model p' /\ output_model p = output_model p'
  /\ test p = test p' /\ test_labels p = test_labels p'
  /\ predictions p = predictions p' /\ score p = score p'.

(** The model as configured before training, and the two optimizers as
    the program sets them up. *)
Definition configured (p : Params) (model : LinearSVM) (numClasses : size_t)
  : LinearSVM :=
  {| Lambda := get_lambda p; Delta := get_delta p;
     FitIntercept := negb (no_intercept p); NumClasses := numClasses;
     Parameters := Parameters model |}.

Definition lbfgs_of (p : Params) : Optimizer :=
  L_BFGS (size_t_of_int (get_max_iterations p)) (get_tolerance p).

Definition psgd_of (threadShareSize : nat -> size_t) (p : Params) (d : mat)
  : Optimizer :=
  ParallelSGD (size_t_of_int (get_max_iterations p))
    (threadShareSize (n_cols d)) (get_tolerance p) (negb (shuffle p))
    (get_step_size p).

(** The outcome of a run whose test stage ended with [r]. *)
Definition hand_back (m : LinearSVM)
    (r : result (option (list size_t) * option mat)) : result Outputs :=
  match r with
  | Ok ps => Ok {| out_model := m; out_predictions := ps.1; out_score := ps.2 |}
  | Fatal f => Fatal f
  | OutOfBounds => OutOfBounds
  end.

(** Every accuracy figure of the report lies in [0,1]. *)
Definition reports_within_unit (log : list event) : Prop :=
  forall e a, e ∈ log -> reported e = Some a -> in_unit a.

(** ** Further vocabulary and inputs *)

(** The checks of [validate] in the order of the source, as the error each
    reports. *)
Definition first_failure (p : Params) : option fatal :=
  if negb (HasParam (training p) || HasParam (input_model p)) then
    Some FatalNonePassed
  else if negb (get_max_iterations p >=? 0)%Z then
    Some (FatalParam "max_iterations" "max_iterations must be positive or zero")
  else if negb (ge_zero (get_tolerance p)) then
    Some (FatalParam "tolerance" "tolerance must be positive or zero")
  else if negb (bool_decide (get_optimizer p ∈ ["lbfgs"; "psgd"]%string)) then
    Some (FatalParam "optimizer" "unknown optimizer")
  else if negb (ge_zero (get_lambda p)) then
    Some (FatalParam "lambda" "lambda must be positive or zero")
  else if negb (get_number_of_classes p >=? 0)%Z then
    Some (FatalParam "number_of_classes"
            ("number of classes must be greater than or "
             +:+ "equal to 0 (equal to 0 in case of unspecified.)"))
  else if negb (ge_zero (get_delta p)) then
    Some (FatalParam "delta"
            "Margin of difference between correct class and other classes")
  else if negb (ge_zero (get_step_size p)) then
    Some (FatalParam "step_size" "step size must be positive")
  else None.

(** The warnings of a run whose parameters pass the checks. *)
Definition advice (p : Params) : list event :=
  (if negb (output_model p || predictions p || score p)
   then [Warn WarnNoOutput] else [])
  ++ (if predictions p && negb (HasParam (test p))
      then [Warn (WarnIgnored "predictions")] else [])
  ++ (if score p && negb (HasParam (test p))
      then [Warn (WarnIgnored "score")] else [])
  ++ (if HasParam (test_labels p) && negb (HasParam (test p))
      then [Warn (WarnIgnored "test_labels")] else [])
  ++ (if negb (String.eqb (get_optimizer p) "psgd")
      then (if HasParam (step_size p)
            then [Warn (WarnNotPsgd "step_size")] else [])
           ++ (if shuffle p then [Warn (WarnNotPsgd "shuffle")] else [])
      else []).

(** Two parameter sets that differ in [labels] at most. *)
Definition same_but_labels (p p' : Params) : Prop :=
  training p = training p' /\ lambda p = lambda p' /\ delta p = delta p'
  /\ number_of_classes p = number_of_classes p'
  /\ no_intercept p = no_intercept p' /\ optimizer p = optimizer p'
  /\ tolerance p = tolerance p' /\ max_iterations p = max_iterations p'
  /\ step_size p = step_size p' /\ shuffle p = shuffle p'
  /\ input_model p = input_model p' /\ output_model p = output_model p'
  /\ test p = test p' /\ test_labels p = test_labels p'
  /\ predictions p = predictions p' /\ score p = score p'.

(** How many calls of [Train] a log holds. *)
Definition train_calls (log : list event) : nat :=
  length (filter (fun e => is_train e) log).

(** [train22] with the parallel SGD optimizer, a step size and the shuffle flag. *)
Definition p_train_psgd : Params :=
  {| training := Some train22; labels := None; lambda := None; delta := None;
     number_of_classes := None; no_intercept := false;
     optimizer := Some "psgd"%string; tolerance := None;
     max_iterations := None; step_size := Some d_one; shuffle := true;
     input_model := None; output_model := true; test := None;
     test_labels := None; predictions := false; score := false |}.

(** [train22] with both of its rows as features and separate labels. *)
Definition p_train_labels : Params :=
  {| training := Some train22; labels := Some [1; 0]; lambda := None;
     delta := None; number_of_classes := None; no_intercept := false;
     optimizer := None; tolerance := None; max_iterations := None;
     step_size := None; shuffle := false; input_model := None;
     output_model := true; test := None; test_labels := None;
     predictions := false; score := false |}.

(** A saved model and a labels vector, with nothing to train on. *)
Definition p_model_labels : Params :=
  {| training := None; labels := Some [0; 1; 5]; lambda := None;
     delta := None; number_of_classes := None; no_intercept := false;
     optimizer := None; tolerance := None; max_iterations := None;
     step_size := None; shuffle := false; input_model := Some toy_model3;
     output_model := true; test := None; test_labels := None;
     predictions := false; score := false |}.

(** A saved model and nothing else but the request to save it. *)
Definition p_model_only : Params :=
  {| training := None; labels := None; lambda := None; delta := None;
     number_of_classes := None; no_intercept := false; optimizer := None;
     tolerance := None; max_iterations := None; step_size := None;
     shuffle := false; input_model := Some toy_model3; output_model := true;
     test := None; test_labels := None; predictions := false;
     score := false |}.

(** A model that was never trained, and a test point. *)
Definition p_empty_model_test : Params :=
  {| training := None; labels := None; lambda := None; delta := None;
     number_of_classes := None; no_intercept := false; optimizer := None;
     tolerance := None; max_iterations := None; step_size := None;
     shuffle := false; input_model := Some toy_default_model;
     output_model := false; test := Some test21; test_labels := None;
     predictions := true; score := false |}.

(** Training on [train22], then testing on one point with its label, all outputs asked for. *)
Definition p_train_test : Params :=
  {| training := Some train22; labels := None; lambda := None; delta := None;
     number_of_classes := None; no_intercept := false; optimizer := None;
     tolerance := None; max_iterations := None; step_size := None;
     shuffle := false; input_model := None; output_model := true;
     test := Some (Mat 1 [[d_one]]); test_labels := Some [0];
     predictions := true; score := true |}.

(** [train22] with a negative iteration limit and an optimizer that does not exist. *)
Definition p_two_errors : Params :=
  {| training := Some train22; labels := None; lambda := None; delta := None;
     number_of_classes := None; no_intercept := false;
     optimizer := Some "sgd"%string; tolerance := None;
     max_iterations := Some (-1)%Z; step_size := None; shuffle := false;
     input_model := None; output_model := false; test := None;
     test_labels := None; predictions := false; score := false |}.

(** A saved model with predictions asked for but no test set, and a step size. *)
Definition p_model_ignored : Params :=
  {| training := None; labels := None; lambda := None; delta := None;
     number_of_classes := None; no_intercept := false; optimizer := None;
     tolerance := None; max_iterations := None; step_size := Some d_one;
     shuffle := false; input_model := Some toy_model3; output_model := false;
     test := None; test_labels := None; predictions := true;
     score := false |}.

(** * Properties *)

(** ** Arithmetic on [size_t] *)

Lemma wrap64_small (x : N) : x < 2 ^ 64 -> wrap64 x = x.
Proof. intros H. unfold wrap64. apply N.mod_small, H. Qed.

Lemma wrap64_lt (x : N) : wrap64 x < 2 ^ 64.
Proof. unfold wrap64. apply N.mod_lt. discriminate. Qed.

Lemma wrap64_add_l (a b : N) : wrap64 (wrap64 a + b) = wrap64 (a + b).
Proof. unfold wrap64. apply N.Div0.add_mod_idemp_l. Qed.

Lemma size_t_of_int_pos (x : Z) :
  (0 <= x < 2 ^ 64)%Z -> size_t_of_int x = Z.to_N x.
Proof. intros H. unfold size_t_of_int. now rewrite Z.mod_small. Qed.

Lemma uword_pred_pos (n : nat) :
  (0 < n)%nat -> N.of_nat n < 2 ^ 64 -> uword_pred n = N.of_nat n - 1.
Proof.
  intros Hn Hb. unfold uword_pred, wrap64.
  replace (N.of_nat n + (2 ^ 64 - 1)) with ((N.of_nat n - 1) + 1 * 2 ^ 64) by lia.
  rewrite N.Div0.mod_add. apply N.mod_small. lia.
Qed.

(** ** The class count *)

Lemma size_unique_labels (labels : list size_t) :
  size (list_to_set labels : gset N) = length (remove_dups labels).
Proof.
  rewrite <- (size_list_to_set (C := gset N) (remove_dups labels))
    by apply NoDup_remove_dups.
  f_equal. apply set_eq. intros x.
  rewrite !elem_of_list_to_set. symmetry. apply elem_of_remove_dups.
Qed.

Lemma NumberOfClasses_zero (labels : list size_t) :
  NumberOfClasses 0 labels = distinct_values labels.
Proof.
  unfold NumberOfClasses, distinct_values. simpl.
  now rewrite size_unique_labels.
Qed.

Lemma NumberOfClasses_pos (n : size_t) (labels : list size_t) :
  n <> 0 -> NumberOfClasses n labels = n.
Proof.
  intros H. unfold NumberOfClasses.
  destruct (N.eqb_spec n 0); [contradiction | reflexivity].
Qed.

Lemma NumberOfClasses_perm (n : size_t) (l1 l2 : list size_t) :
  l1 ≡ₚ l2 -> NumberOfClasses n l1 = NumberOfClasses n l2.
Proof.
  intros H. unfold NumberOfClasses.
  destruct (n =? 0); [| reflexivity].
  now rewrite (list_to_set_perm_L (C := gset N) _ _ H).
Qed.

(** ** Counting *)

Lemma count_le_length {A} (f : A -> bool) (l : list A) :
  count f l <= N.of_nat (length l).
Proof.
  induction l as [| x l IH]; simpl; [lia |].
  destruct (f x); lia.
Qed.

Lemma count_perm {A} (f : A -> bool) (l1 l2 : list A) :
  l1 ≡ₚ l2 -> count f l1 = count f l2.
Proof.
  induction 1 as [| x l l' _ IH | x y l | l l' l'' _ IH1 _ IH2]; simpl.
  - reflexivity.
  - now rewrite IH.
  - lia.
  - now rewrite IH1.
Qed.

Lemma count_mono {A} (f g : A -> bool) (l : list A) :
  (forall x, f x = true -> g x = true) -> count f l <= count g l.
Proof.
  intros H. induction l as [| x l IH]; simpl; [lia |].
  destruct (f x) eqn:E.
  - rewrite (H x E). lia.
  - destruct (g x); lia.
Qed.

Lemma hit_le_label (c : size_t) (pl : list (size_t * size_t)) :
  hit_count c pl <= label_count c pl.
Proof.
  apply count_mono. intros x H. now apply andb_true_iff in H as [_ H].
Qed.

Lemma match_le_length (pl : list (size_t * size_t)) :
  match_count pl <= N.of_nat (length pl).
Proof. apply count_le_length. Qed.

Lemma forallb_perm {A} (f : A -> bool) (l1 l2 : list A) :
  l1 ≡ₚ l2 -> forallb f l1 = forallb f l2.
Proof.
  induction 1 as [| x l l' _ IH | x y l | l l' l'' _ IH1 _ IH2]; simpl.
  - reflexivity.
  - now rewrite IH.
  - destruct (f x), (f y); reflexivity.
  - now rewrite IH1.
Qed.

Lemma sumN_cons (x : N) (l : list N) : sumN (x :: l) = x + sumN l.
Proof. reflexivity. Qed.

Lemma sumN_zero {A} (cs : list A) : sumN ((fun _ => 0) <$> cs) = 0.
Proof.
  induction cs as [| c cs IH]; [reflexivity |].
  now rewrite fmap_cons, sumN_cons, IH.
Qed.

Lemma sumN_add {A} (f g : A -> N) (cs : list A) :
  sumN ((fun c => f c + g c) <$> cs) = sumN (f <$> cs) + sumN (g <$> cs).
Proof.
  induction cs as [| c cs IH]; [reflexivity |].
  rewrite !fmap_cons, !sumN_cons, IH. lia.
Qed.

(** The indicator of one class, summed over all classes. *)
Lemma sum_indicator (l : size_t) (k n : nat) :
  sumN ((fun c => if l =? c then 1 else 0) <$> (N.of_nat <$> seq k n))
  = if bool_decide (k <= N.to_nat l < k + n)%nat then 1 else 0.
Proof.
  revert k. induction n as [| n IH]; intros k; simpl.
  - case_bool_decide; [lia | reflexivity].
  - rewrite IH. destruct (N.eqb_spec l (N.of_nat k)) as [-> | Hne].
    + rewrite Nat2N.id.
      rewrite (bool_decide_eq_false_2 (S k <= k < S k + n)%nat) by lia.
      rewrite bool_decide_eq_true_2 by lia. reflexivity.
    + repeat case_bool_decide; lia.
Qed.

Lemma sum_hit_count (n : size_t) (pl : list (size_t * size_t)) :
  forallb (fun x => x.2 <? n) pl = true ->
  sumN ((fun c => hit_count c pl) <$> classes n) = match_count pl.
Proof.
  unfold classes, hit_count, match_count.
  induction pl as [| [p l] pl IH]; intros H.
  - apply sumN_zero.
  - simpl in H. apply andb_true_iff in H as [Hl H]. apply N.ltb_lt in Hl.
    cbn [count fst snd]. rewrite <- (IH H). clear IH H.
    rewrite sumN_add. f_equal.
    destruct (p =? l); cbn [andb].
    + rewrite sum_indicator. rewrite bool_decide_eq_true_2 by lia. reflexivity.
    + apply sumN_zero.
Qed.

(** ** The counting loop *)

Lemma vec_incr_spec (v : list size_t) (l : size_t) :
  (N.to_nat l < length v)%nat ->
  exists v',
    vec_incr v l = Some v'
    /\ length v' = length v
    /\ forall (c : nat) (x : size_t), v !! c = Some x ->
         v' !! c = Some (if l =? N.of_nat c then wrap64 (x + 1) else x).
Proof.
  intros Hl. destruct (lookup_lt_is_Some_2 v _ Hl) as [y Hy].
  exists (<[N.to_nat l := wrap64 (y + 1)]> v). split; [| split].
  - unfold vec_incr. rewrite Hy. reflexivity.
  - apply length_insert.
  - intros c x Hc. destruct (N.eqb_spec l (N.of_nat c)) as [-> | Hne].
    + rewrite Nat2N.id in *. rewrite list_lookup_insert_eq by lia. congruence.
    + rewrite list_lookup_insert_ne by lia. exact Hc.
Qed.

Lemma vec_incr_oob (v : list size_t) (l : size_t) :
  (length v <= N.to_nat l)%nat -> vec_incr v l = None.
Proof.
  intros Hl. unfold vec_incr. now rewrite (lookup_ge_None_2 v _ Hl).
Qed.

Lemma drop_cons_inv {A} (i : nat) (tl : list A) (l : A) (rest : list A) :
  drop i tl = l :: rest -> tl !! i = Some l /\ rest = drop (S i) tl.
Proof.
  intros Hd.
  assert (Hi : tl !! i = Some l).
  { rewrite <- (Nat.add_0_r i), <- lookup_drop, Hd. reflexivity. }
  split; [exact Hi |].
  rewrite (drop_S _ _ _ Hi) in Hd. congruence.
Qed.

Lemma tally_from_spec (ps : list size_t) :
  forall (i : nat) (tl b s : list size_t),
    length b = length s ->
    length (drop i tl) = length ps ->
    Forall (fun l => (N.to_nat l < length b)%nat) (drop i tl) ->
    exists b' s',
      tally_from i ps tl (b, s) = Some (b', s')
      /\ length b' = length b /\ length s' = length s
      /\ (forall c x, b !! c = Some x -> x < 2 ^ 64 ->
            b' !! c = Some (wrap64 (x + hit_count (N.of_nat c)
                                          (zip ps (drop i tl)))))
      /\ (forall c x, s !! c = Some x -> x < 2 ^ 64 ->
            s' !! c = Some (wrap64 (x + label_count (N.of_nat c)
                                          (zip ps (drop i tl))))).
Proof.
  induction ps as [| p ps IH]; intros i tl b s Hbs Hlen Hall.
  - exists b, s. cbn. repeat split; trivial.
    + intros c x Hc Hx. now rewrite N.add_0_r, wrap64_small.
    + intros c x Hc Hx. now rewrite N.add_0_r, wrap64_small.
  - destruct (drop i tl) as [| l rest] eqn:Hd; [discriminate |].
    destruct (drop_cons_inv _ _ _ _ Hd) as [Hi ->].
    apply Forall_cons in Hall as [Hl Hall].
    destruct (vec_incr_spec s l) as (s1 & Es & Ls & Hs1); [lia |].
    destruct (vec_incr_spec b l) as (b1 & Eb & Lb & Hb1); [lia |].
    set (b2 := if p =? l then b1 else b).
    assert (Lb2 : length b2 = length b) by (unfold b2; destruct (p =? l); auto).
    destruct (IH (S i) tl b2 s1) as (b' & s' & E & Lb' & Ls' & Hb' & Hs').
    { congruence. }
    { simpl in Hlen. lia. }
    { now rewrite Lb2. }
    exists b', s'. split; [| split; [| split; [| split]]].
    + cbn [tally_from]. rewrite Hi. cbn [mbind option_bind fst snd].
      replace (if p =? l then vec_incr b l else Some b) with (Some b2)
        by (unfold b2; destruct (p =? l); auto).
      cbn [mbind option_bind]. rewrite Es. exact E.
    + congruence.
    + congruence.
    + intros c x Hc Hx. unfold hit_count. cbn [zip zip_with count fst snd].
      fold (hit_count (N.of_nat c) (zip ps (drop (S i) tl))).
      unfold b2 in Hb'. destruct (p =? l); cbn [andb].
      * rewrite (Hb' c _ (Hb1 c x Hc)).
        -- destruct (l =? N.of_nat c).
           ++ now rewrite wrap64_add_l, <- N.add_assoc.
           ++ reflexivity.
        -- destruct (l =? N.of_nat c); [apply wrap64_lt | exact Hx].
      * now rewrite (Hb' c x Hc Hx).
    + intros c x Hc Hx. unfold label_count. cbn [zip zip_with count fst snd].
      fold (label_count (N.of_nat c) (zip ps (drop (S i) tl))).
      rewrite (Hs' c _ (Hs1 c x Hc)).
      * destruct (l =? N.of_nat c).
        -- now rewrite wrap64_add_l, <- N.add_assoc.
        -- reflexivity.
      * destruct (l =? N.of_nat c); [apply wrap64_lt | exact Hx].
Qed.

Lemma tally_from_oob (ps : list size_t) :
  forall (i : nat) (tl b s : list size_t),
    length b = length s ->
    length (drop i tl) = length ps ->
    Exists (fun l => (length b <= N.to_nat l)%nat) (drop i tl) ->
    tally_from i ps tl (b, s) = None.
Proof.
  induction ps as [| p ps IH]; intros i tl b s Hbs Hlen Hex.
  - destruct (drop i tl); [inversion Hex | discriminate].
  - destruct (drop i tl) as [| l rest] eqn:Hd; [discriminate |].
    destruct (drop_cons_inv _ _ _ _ Hd) as [Hi ->].
    cbn [tally_from]. rewrite Hi. cbn [mbind option_bind fst snd].
    destruct (le_lt_dec (length b) (N.to_nat l)) as [Hge | Hlt].
    + rewrite (vec_incr_oob s l) by lia.
      destruct (if p =? l then vec_incr b l else Some b); reflexivity.
    + apply Exists_cons in Hex as [Hex | Hex]; [lia |].
      destruct (vec_incr_spec s l) as (s1 & Es & Ls & _); [lia |].
      destruct (vec_incr_spec b l) as (b1 & Eb & Lb & _); [lia |].
      rewrite Es, Eb.
      destruct (p =? l); cbn [mbind option_bind];
        apply IH; simpl in Hlen; try lia; try congruence.
      now rewrite Lb.
Qed.

Lemma forallb_below (n : size_t) (ps tl : list size_t) :
  length ps = length tl ->
  forallb (fun x : size_t * size_t => x.2 <? n) (zip ps tl) = true
  <-> Forall (fun l => (N.to_nat l < N.to_nat n)%nat) tl.
Proof.
  revert tl. induction ps as [| p ps IH]; intros [| l tl] Hlen;
    try discriminate; cbn.
  - split; [constructor | reflexivity].
  - rewrite andb_true_iff, Forall_cons, N.ltb_lt, IH by (simpl in Hlen; lia).
    split; intros [? ?]; split; trivial; lia.
Qed.

(** The loop computes the intended counters (modulo 2^64), and runs past
    the end of them exactly when a test label is not below the class
    count. *)
Lemma tally_eq_spec (numClasses : size_t) (ps tl : list size_t) :
  length ps = length tl ->
  tally numClasses ps tl = tally_spec numClasses (zip ps tl).
Proof.
  intros Hlen. unfold tally, tally_spec.
  destruct (forallb _ (zip ps tl)) eqn:Hall.
  - apply forallb_below in Hall; [| exact Hlen].
    destruct (tally_from_spec ps 0 tl (replicate (N.to_nat numClasses) 0)
                (replicate (N.to_nat numClasses) 0))
      as (b' & s' & E & Lb & Ls & Hb & Hs).
    { reflexivity. }
    { rewrite drop_0. now symmetry. }
    { rewrite drop_0, length_replicate. exact Hall. }
    rewrite E. rewrite drop_0 in Hb, Hs. rewrite length_replicate in Lb, Ls.
    f_equal. f_equal.
    + apply list_eq. intros c. unfold classes.
      rewrite !list_lookup_fmap.
      destruct (le_lt_dec (N.to_nat numClasses) c) as [Hge | Hlt].
      * rewrite (lookup_ge_None_2 b') by lia.
        rewrite (lookup_ge_None_2 (seq _ _)) by (rewrite length_seq; lia).
        reflexivity.
      * rewrite (lookup_seq_lt _ _ _ Hlt). cbn.
        apply (Hb c 0); [now apply lookup_replicate_2 | reflexivity].
    + apply list_eq. intros c. unfold classes.
      rewrite !list_lookup_fmap.
      destruct (le_lt_dec (N.to_nat numClasses) c) as [Hge | Hlt].
      * rewrite (lookup_ge_None_2 s') by lia.
        rewrite (lookup_ge_None_2 (seq _ _)) by (rewrite length_seq; lia).
        reflexivity.
      * rewrite (lookup_seq_lt _ _ _ Hlt). cbn.
        apply (Hs c 0); [now apply lookup_replicate_2 | reflexivity].
  - apply tally_from_oob.
    + reflexivity.
    + rewrite drop_0. now symmetry.
    + rewrite drop_0, length_replicate.
      assert (HE : Exists (not ∘ (fun l => (N.to_nat l < N.to_nat numClasses)%nat))
                     tl).
      { apply not_Forall_Exists; [intros l; apply _ |].
        intros HF. apply (forallb_below numClasses ps tl Hlen) in HF.
        congruence. }
      eapply Exists_impl; [exact HE |]. intros l Hl. cbn in Hl. lia.
Qed.

(** ** The reporting loop *)

Lemma report_from_lines (bs : list size_t) :
  forall i labelSize tot lines tot',
    report_from i bs labelSize tot = Some (lines, tot') ->
    Forall (fun e => is_accuracy e) lines.
Proof.
  induction bs as [| b bs IH]; intros i labelSize tot lines tot' H.
  - cbn in H. injection H as <- _. constructor.
  - cbn [report_from] in H.
    destruct (labelSize !! i) as [s |]; [| discriminate].
    cbn [mbind option_bind] in H.
    destruct (report_from (S i) bs labelSize (wrap64 (tot + b)))
      as [[ls t] |] eqn:E; [| discriminate].
    cbn in H. injection H as <- _.
    constructor; [exact I | eapply IH, E].
Qed.

Lemma report_from_spec (bs : list size_t) :
  forall i labelSize tot,
    length (drop i labelSize) = length bs ->
    tot < 2 ^ 64 ->
    report_from i bs labelSize tot
    = Some (zip_with (fun c x => Info (InfoAccuracy c x.1 x.2 (fdiv x.1 x.2)))
              (N.of_nat <$> seq i (length bs)) (zip bs (drop i labelSize)),
            wrap64 (tot + sumN bs)).
Proof.
  induction bs as [| b bs IH]; intros i labelSize tot Hlen Htot.
  - cbn. now rewrite N.add_0_r, wrap64_small.
  - destruct (drop i labelSize) as [| s rest] eqn:Hd; [discriminate |].
    destruct (drop_cons_inv _ _ _ _ Hd) as [Hi ->].
    cbn [report_from]. rewrite Hi. cbn [mbind option_bind].
    rewrite IH; [| simpl in Hlen; lia | apply wrap64_lt].
    rewrite wrap64_add_l, sumN_cons, N.add_assoc. reflexivity.
Qed.

Lemma zip_with_classes {A} (f g : A -> N) (h : A -> N) (cs : list A) :
  zip_with (fun c (x : N * N) => Info (InfoAccuracy c x.1 x.2 (fdiv x.1 x.2)))
    (h <$> cs) (zip (f <$> cs) (g <$> cs))
  = (fun c => Info (InfoAccuracy (h c) (f c) (g c) (fdiv (f c) (g c)))) <$> cs.
Proof.
  induction cs as [| c cs IH]; [reflexivity |].
  cbn. f_equal. exact IH.
Qed.

Lemma accuracy_log (numClasses : size_t) (ps tl : list size_t) :
  Forall (fun e => is_accuracy e) (log_of (accuracy numClasses ps tl))
  /\ is_fatal (outcome (accuracy numClasses ps tl)) = false.
Proof.
  unfold accuracy.
  destruct (tally numClasses ps tl) as [[b s] |]; [| split; [constructor | reflexivity]].
  destruct (report_from 0 b s 0) as [[lines tot] |] eqn:E;
    [| split; [constructor | reflexivity]].
  split; [| reflexivity]. cbn.
  apply Forall_app. split; [eapply report_from_lines, E |].
  repeat constructor.
Qed.

(** With every test label below the class count, and fewer than 2^64
    points, the report shows the intended counts. *)
Lemma accuracy_in_bounds (numClasses : size_t) (ps tl : list size_t) :
  length ps = length tl ->
  N.of_nat (length ps) < 2 ^ 64 ->
  Forall (fun l => l < numClasses) tl ->
  accuracy numClasses ps tl
  = (class_lines numClasses (zip ps tl)
       ++ [Info (InfoTotal (match_count (zip ps tl)) (N.of_nat (length ps))
                   (fdiv (match_count (zip ps tl)) (N.of_nat (length ps))))],
     Ok tt).
Proof.
  intros Hlen Hn Hall.
  assert (Hz : length (zip ps tl) = length ps).
  { rewrite length_zip_with. lia. }
  assert (Hb : forallb (fun x : N * N => x.2 <? numClasses) (zip ps tl) = true).
  { apply forallb_below; [exact Hlen |].
    eapply Forall_impl; [exact Hall |]. intros l Hl. cbn in Hl. lia. }
  assert (Hh : forall c, wrap64 (hit_count c (zip ps tl)) = hit_count c (zip ps tl)).
  { intros c. apply wrap64_small.
    pose proof (count_le_length
                  (fun x : N * N => (x.1 =? x.2) && (x.2 =? c)) (zip ps tl)).
    unfold hit_count. lia. }
  assert (Hl : forall c, wrap64 (label_count c (zip ps tl))
                         = label_count c (zip ps tl)).
  { intros c. apply wrap64_small.
    pose proof (count_le_length (fun x : N * N => x.2 =? c) (zip ps tl)).
    unfold label_count. lia. }
  unfold accuracy. rewrite (tally_eq_spec _ _ _ Hlen). unfold tally_spec.
  rewrite Hb.
  rewrite (list_fmap_ext _ (fun c => hit_count c (zip ps tl)) (classes numClasses))
    by (intros; apply Hh).
  rewrite (list_fmap_ext (fun c => wrap64 (label_count c (zip ps tl)))
             (fun c => label_count c (zip ps tl)) (classes numClasses))
    by (intros; apply Hl).
  rewrite report_from_spec; [| now rewrite drop_0, !length_fmap | reflexivity].
  rewrite drop_0, N.add_0_l, (sum_hit_count _ _ Hb).
  rewrite wrap64_small
    by (pose proof (match_le_length (zip ps tl)); lia).
  f_equal. f_equal.
  rewrite length_fmap. unfold classes at 1. rewrite length_fmap, length_seq.
  fold (classes numClasses).
  unfold class_lines.
  rewrite <- (zip_with_classes (fun c => hit_count c (zip ps tl))
                (fun c => label_count c (zip ps tl)) (fun c => c)).
  now rewrite list_fmap_id.
Qed.

(** ** Quotients *)

Lemma fdiv_in_unit (a b : size_t) : a <= b -> b <> 0 -> in_unit (fdiv a b).
Proof.
  intros Hab Hb. unfold fdiv. destruct (N.eqb_spec b 0); [contradiction |].
  assert (Hp : Z.pos (N.succ_pos (N.pred b)) = Z.of_N b).
  { pose proof (N.succ_pos_spec (N.pred b)) as H.
    rewrite N.succ_pred in H by assumption.
    rewrite <- H at 2. reflexivity. }
  unfold in_unit, Qle. cbn [Qnum Qden]. rewrite Hp. lia.
Qed.

Lemma fdiv_zero_divisor (a : size_t) : a <= 0 -> fdiv a 0 = NaN.
Proof. intros H. assert (a = 0) as -> by lia. reflexivity. Qed.

(** ** Sequencing *)

Lemma bind_Ok {A B} (m : M A) (k : A -> M B) (log : list event) (a : A) :
  m = (log, Ok a) -> m ≫= k = (log ++ log_of (k a), outcome (k a)).
Proof. intros ->. cbn. now destruct (k a). Qed.

Lemma bind_Fatal {A B} (m : M A) (k : A -> M B) (log : list event) (f : fatal) :
  m = (log, Fatal f) -> m ≫= k = (log, Fatal f).
Proof. now intros ->. Qed.

Lemma checked_bind (c1 c2 : bool) (m1 m2 : M unit) :
  checked c1 m1 -> checked c2 m2 -> checked (c1 && c2) (m1 ;; m2).
Proof.
  intros (ws1 & W1 & H1) (ws2 & W2 & H2). destruct c1; cbn [andb].
  - subst m1. exists (ws1 ++ ws2). split; [now apply Forall_app |].
    destruct c2.
    + subst m2. reflexivity.
    + destruct H2 as [f ->]. now exists f.
  - destruct H1 as [f ->]. exists ws1. split; [exact W1 |]. now exists f.
Qed.

Lemma checked_RequireParamValue {T} name (v : T) cond msg :
  checked (cond v) (RequireParamValue name v cond true msg).
Proof.
  exists []. split; [constructor |]. unfold RequireParamValue.
  destruct (cond v); [reflexivity | now eexists].
Qed.

Lemma checked_RequireParamInSet name v set msg :
  checked (bool_decide (v ∈ set)) (RequireParamInSet name v set true msg).
Proof.
  exists []. split; [constructor |]. unfold RequireParamInSet.
  destruct (bool_decide _); [reflexivity | now eexists].
Qed.

Lemma checked_RequireAtLeastOnePassed passed w :
  checked (existsb id passed) (RequireAtLeastOnePassed passed true w).
Proof.
  exists []. split; [constructor |]. unfold RequireAtLeastOnePassed.
  destruct (existsb id passed); [reflexivity | now eexists].
Qed.

Lemma checked_advice passed w :
  checked true (RequireAtLeastOnePassed passed false w).
Proof.
  unfold RequireAtLeastOnePassed. destruct (existsb id passed).
  - exists []. split; [constructor | reflexivity].
  - exists [Warn w]. split; [repeat constructor | reflexivity].
Qed.

Lemma checked_when_warn (b : bool) (w : warning) :
  checked true (when b (emit (Warn w))).
Proof.
  destruct b.
  - exists [Warn w]. split; [repeat constructor | reflexivity].
  - exists []. split; [constructor | reflexivity].
Qed.

Lemma checked_ReportIgnoredParam constraints name passed :
  checked true (ReportIgnoredParam constraints name passed).
Proof. apply checked_when_warn. Qed.

(** ** The checks on the parameters *)

Lemma checked_when_true (b : bool) (m : M unit) :
  checked true m -> checked true (when b m).
Proof.
  intros H. destruct b; [exact H |].
  exists []. split; [constructor | reflexivity].
Qed.

Lemma checked_bind_true (m1 m2 : M unit) :
  checked true m1 -> checked true m2 -> checked true (m1 ;; m2).
Proof. intros H1 H2. exact (checked_bind true true m1 m2 H1 H2). Qed.

Lemma checked_eq (c c' : bool) (m : M unit) :
  c = c' -> checked c m -> checked c' m.
Proof. now intros ->. Qed.

Lemma validate_checked (p : Params) : checked (valid p) (validate p).
Proof.
  unfold validate.
  eapply checked_eq;
    [| repeat first
         [ apply checked_bind
         | apply checked_bind_true
         | apply checked_RequireAtLeastOnePassed
         | apply checked_advice
         | apply checked_ReportIgnoredParam
         | apply checked_RequireParamValue
         | apply checked_RequireParamInSet
         | apply checked_when_warn
         | apply checked_when_true ] ].
  unfold valid. cbn [existsb id].
  rewrite !andb_true_l, !andb_true_r, orb_false_r, !andb_assoc. reflexivity.
Qed.

(** A run is the run of the checks, followed by the rest when they pass. *)
Lemma mlpackMain_cases conv dm Train Classify Scores openmp share (p : Params) :
  exists ws, Forall (fun e => is_warn e) ws
    /\ if valid p then
         validate p = (ws, Ok tt)
         /\ mlpackMain conv dm Train Classify Scores openmp share p
            = (ws ++ log_of (run conv dm Train Classify Scores openmp share p),
               outcome (run conv dm Train Classify Scores openmp share p))
       else
         exists f, validate p = (ws, Fatal f)
           /\ mlpackMain conv dm Train Classify Scores openmp share p
              = (ws, Fatal f).
Proof.
  destruct (validate_checked p) as (ws & W & H). exists ws. split; [exact W |].
  unfold mlpackMain. destruct (valid p).
  - split; [exact H |].
    exact (bind_Ok (validate p)
             (fun _ => run conv dm Train Classify Scores openmp share p)
             ws tt H).
  - destruct H as [f H]. exists f. split; [exact H |]. now apply bind_Fatal.
Qed.

Lemma fatal_message_nonempty (f : fatal) : fatal_message f <> EmptyString.
Proof. destruct f; discriminate. Qed.

Lemma negative_not_ge_zero (x : double) : negative x = true -> ge_zero x = false.
Proof.
  unfold negative, ge_zero, SFltb, SFleb, d_zero.
  destruct x as [[] | [] | | [] m e]; cbn; congruence.
Qed.

(** ** The stages after the checks *)

(** Goals of the form [Forall P log] for an explicit log. *)
Ltac forall_events tac :=
  cbn [log_of fst app];
  repeat (apply List.Forall_cons; [tac |]);
  try solve [apply List.Forall_nil].

Section Stages.

Variable conv_to_size_t : double -> size_t.
Variable default_model : LinearSVM.
Variable Train :
  LinearSVM -> mat -> list size_t -> size_t -> Optimizer -> LinearSVM.
Variable Classify : LinearSVM -> mat -> list size_t.
Variable ClassifyScores : LinearSVM -> mat -> mat.
Variable HAS_OPENMP : bool.
Variable threadShareSize : nat -> size_t.

Let load := load_labels conv_to_size_t.
Let training_stage := train Train HAS_OPENMP threadShareSize.
Let test_stage := classify_test Classify ClassifyScores.
Let body :=
  run conv_to_size_t default_model Train Classify ClassifyScores HAS_OPENMP
    threadShareSize.

Lemma load_labels_spec (p : Params) (ts : mat) :
  load p ts =
  match training p, labels p with
  | Some _, Some ls =>
      if (n_cols ts =? length ls)%nat then ([], Ok (ts, ls))
      else ([], Fatal FatalLabels)
  | Some _, None =>
      if (n_rows ts <? 2)%nat then ([], Fatal FatalRows)
      else ([], Ok (shed_row ts (n_rows ts - 1),
                    conv_to_size_t <$> row ts (n_rows ts - 1)))
  | None, _ => ([], Ok (ts, []))
  end.
Proof.
  unfold load, load_labels.
  destruct (training p), (labels p);
    cbn [HasParam andb default from_option id]; try reflexivity.
  - destruct (n_cols ts =? length l)%nat; reflexivity.
  - destruct (n_rows ts <? 2)%nat; reflexivity.
Qed.

Lemma train_spec (p : Params) (m : LinearSVM) (d : mat) (ls : list size_t)
    (nc : size_t) :
  training_stage p m d ls nc =
  if HasParam (training p) then
    if String.eqb (get_optimizer p) "lbfgs" then
      ([Info InfoTrainLBFGS; CallTrain d ls nc (lbfgs_of p)],
       Ok (Train (configured p m nc) d ls nc (lbfgs_of p)))
    else if HAS_OPENMP then
      if String.eqb (get_optimizer p) "psgd" then
        ([Info InfoTrainPSGD; CallTrain d ls nc (psgd_of threadShareSize p d)],
         Ok (Train (configured p m nc) d ls nc (psgd_of threadShareSize p d)))
      else ([], Ok (configured p m nc))
    else ([], Fatal FatalOpenMP)
  else ([], Ok m).
Proof using Train HAS_OPENMP threadShareSize.
  unfold training_stage, train.
  destruct (HasParam (training p)); [| reflexivity].
  destruct (String.eqb (get_optimizer p) "lbfgs"); [reflexivity |].
  case HAS_OPENMP; [| reflexivity].
  destruct (String.eqb (get_optimizer p) "psgd"); reflexivity.
Qed.

(** Training calls the model at most once, on the data and labels it is
    given, with the optimizer that was asked for. *)
Lemma train_log (p : Params) (m : LinearSVM) (d : mat) (ls : list size_t)
    (nc : size_t) :
  Forall (fun e => is_classify e = false /\ is_accuracy e = false
                   /\ forall d' ls' nc' opt, e = CallTrain d' ls' nc' opt ->
                        d' = d /\ ls' = ls /\ nc' = nc
                        /\ (opt = lbfgs_of p
                              /\ get_optimizer p = "lbfgs"%string
                            \/ opt = psgd_of threadShareSize p d
                               /\ get_optimizer p = "psgd"%string))
    (log_of (training_stage p m d ls nc)).
Proof using Train HAS_OPENMP threadShareSize.
  rewrite train_spec.
  case (HasParam (training p)); [| constructor].
  destruct (String.eqb_spec (get_optimizer p) "lbfgs") as [E1 | E1].
  { forall_events
      ltac:(split;
            [reflexivity
            | split;
              [reflexivity
              | intros ? ? ? ? E;
                first [discriminate E
                      | injection E as <- <- <- <-; repeat split; auto]]]). }
  case HAS_OPENMP; [| constructor].
  destruct (String.eqb_spec (get_optimizer p) "psgd") as [E2 | E2];
    [| constructor].
  forall_events
    ltac:(split;
          [reflexivity
          | split;
            [reflexivity
            | intros ? ? ? ? E;
              first [discriminate E
                      | injection E as <- <- <- <-; repeat split; auto]]]).
Qed.

(** The log lines and results around the accuracy report. *)
Lemma classify_test_spec (p : Params) (m : LinearSVM) (nc : size_t)
    (t : mat) :
  test p = Some t ->
  let dim := uword_pred (n_rows (Parameters m)) in
  let slog :=
    if score p then [Info InfoScore; CallClassifyScore t] else [] in
  let sc := if score p then Some (ClassifyScores m t) else None in
  let plog := if predictions p then [Info InfoPredicting] else [] in
  let out := if predictions p then Some (Classify m t) else None in
  test_stage p m nc =
  if negb (N.of_nat (n_rows t) =? dim) then
    ([], Fatal (FatalTestDim (N.of_nat (n_rows t)) dim))
  else
    match test_labels p with
    | Some tl =>
        if negb (n_cols t =? length tl)%nat then
          (slog ++ [CallClassify t],
           Fatal (FatalTestLabels (N.of_nat (n_cols t))
                    (N.of_nat (length tl))))
        else
          match accuracy nc (Classify m t) tl with
          | (alog, Ok _) =>
              (slog ++ [CallClassify t] ++ alog ++ plog, Ok (out, sc))
          | (alog, Fatal f) => (slog ++ [CallClassify t] ++ alog, Fatal f)
          | (alog, OutOfBounds) =>
              (slog ++ [CallClassify t] ++ alog, OutOfBounds)
          end
    | None => (slog ++ [CallClassify t] ++ plog, Ok (out, sc))
    end.
Proof.
  intros Ht. unfold test_stage, classify_test. rewrite Ht.
  destruct (negb (N.of_nat (n_rows t) =? _)); [reflexivity |].
  destruct (test_labels p) as [tl |].
  - destruct (negb (n_cols t =? length tl)%nat).
    + destruct (score p); reflexivity.
    + destruct (accuracy nc (Classify m t) tl) as [alog [[] | f |]];
        destruct (score p), (predictions p); reflexivity.
  - destruct (score p), (predictions p); reflexivity.
Qed.

Lemma test_stage_no_train (p : Params) (m : LinearSVM) (nc : size_t) :
  Forall (fun e => is_train e = false) (log_of (test_stage p m nc)).
Proof.
  destruct (test p) as [t |] eqn:Ht.
  2: { unfold test_stage, classify_test. rewrite Ht. constructor. }
  rewrite (classify_test_spec p m nc t Ht).
  pose proof (accuracy_log nc (Classify m t)) as Hacc.
  assert (Ha : forall tl, Forall (fun e => is_train e = false)
                            (log_of (accuracy nc (Classify m t) tl))).
  { intros tl. destruct (Hacc tl) as [Hl _].
    eapply Forall_impl; [exact Hl |]. now intros []. }
  destruct (negb (N.of_nat (n_rows t) =? _)); [constructor |].
  destruct (test_labels p) as [tl |].
  - destruct (negb (n_cols t =? length tl)%nat).
    + destruct (score p); forall_events ltac:(reflexivity).
    + specialize (Ha tl).
      destruct (accuracy nc (Classify m t) tl) as [alog [[] | f |]];
        destruct (score p), (predictions p); cbn [log_of fst app];
        repeat first [ exact Ha
                     | apply List.Forall_nil
                     | apply List.Forall_cons; [reflexivity |]
                     | apply Forall_app; split ].
  - destruct (score p), (predictions p); forall_events ltac:(reflexivity).
Qed.

Lemma run_load_fatal (p : Params) (f : fatal) :
  load p (default empty_mat (training p)) = ([], Fatal f) ->
  body p = ([], Fatal f).
Proof.
  intros H. unfold body, run. fold load. now rewrite H.
Qed.

Lemma run_train_fatal (p : Params) d ls tlog (f : fatal) :
  load p (default empty_mat (training p)) = ([], Ok (d, ls)) ->
  training_stage p (default default_model (input_model p)) d ls
    (derived_numClasses p ls) = (tlog, Fatal f) ->
  body p = (tlog, Fatal f).
Proof.
  intros H1 H2. unfold body, run. fold load. rewrite H1.
  cbn [mbind M_bind fst snd]. fold training_stage. now rewrite H2.
Qed.

Lemma run_trained (p : Params) d ls tlog (m : LinearSVM) :
  load p (default empty_mat (training p)) = ([], Ok (d, ls)) ->
  training_stage p (default default_model (input_model p)) d ls
    (derived_numClasses p ls) = (tlog, Ok m) ->
  body p
  = (tlog ++ log_of (test_stage p m (derived_numClasses p ls)),
     hand_back m (outcome (test_stage p m (derived_numClasses p ls)))).
Proof.
  intros H1 H2. unfold body, run. fold load. rewrite H1.
  cbn [mbind M_bind fst snd]. fold training_stage. rewrite H2.
  fold test_stage. cbn [mbind M_bind].
  destruct (test_stage p m (derived_numClasses p ls)) as [clog [ps | f |]];
    cbn; rewrite ?app_nil_r; reflexivity.
Qed.

Lemma load_cases (p : Params) (ts : mat) :
  (exists f, load p ts = ([], Fatal f))
  \/ (exists d ls, load p ts = ([], Ok (d, ls))).
Proof.
  rewrite load_labels_spec.
  destruct (training p), (labels p);
    repeat match goal with
           | |- context [if ?b then _ else _] => case b
           end; eauto.
Qed.

Lemma train_cases (p : Params) (m : LinearSVM) d ls nc :
  (exists tlog f, training_stage p m d ls nc = (tlog, Fatal f))
  \/ (exists tlog m', training_stage p m d ls nc = (tlog, Ok m')).
Proof using Train HAS_OPENMP threadShareSize.
  rewrite train_spec.
  repeat match goal with
         | |- context [if ?b then _ else _] => case b
         end; eauto.
Qed.

(** Every call of [Train] in a run is made on the data and labels that
    the label stage produced, with the class count derived from them. *)
Lemma run_train_events (p : Params) d ls nc opt :
  CallTrain d ls nc opt ∈ log_of (body p) ->
  load p (default empty_mat (training p)) = ([], Ok (d, ls))
  /\ nc = derived_numClasses p ls
  /\ (opt = lbfgs_of p /\ get_optimizer p = "lbfgs"%string
      \/ opt = psgd_of threadShareSize p d
         /\ get_optimizer p = "psgd"%string).
Proof.
  intros Hin.
  destruct (load_cases p (default empty_mat (training p)))
    as [[f Hl] | (d0 & ls0 & Hl)].
  { rewrite (run_load_fatal p f Hl) in Hin. cbn in Hin. inversion Hin. }
  pose proof (train_log p (default default_model (input_model p)) d0 ls0
                (derived_numClasses p ls0)) as Htl.
  assert (Hgoal : CallTrain d ls nc opt
                  ∈ log_of (training_stage p
                              (default default_model (input_model p)) d0 ls0
                              (derived_numClasses p ls0)) ->
                  load p (default empty_mat (training p)) = ([], Ok (d, ls))
                  /\ nc = derived_numClasses p ls
                  /\ (opt = lbfgs_of p /\ get_optimizer p = "lbfgs"%string
                      \/ opt = psgd_of threadShareSize p d
                         /\ get_optimizer p = "psgd"%string)).
  { intros Hin'. rewrite Forall_forall in Htl.
    destruct (Htl _ Hin') as (_ & _ & H).
    destruct (H d ls nc opt eq_refl) as (-> & -> & -> & Ho). auto. }
  destruct (train_cases p (default default_model (input_model p)) d0 ls0
              (derived_numClasses p ls0))
    as [(tlog & f & Ht) | (tlog & m & Ht)].
  - rewrite (run_train_fatal p d0 ls0 tlog f Hl Ht) in Hin.
    apply Hgoal. now rewrite Ht.
  - rewrite (run_trained p d0 ls0 tlog m Hl Ht) in Hin. cbn [log_of fst] in Hin.
    apply elem_of_app in Hin as [Hin | Hin].
    + apply Hgoal. now rewrite Ht.
    + pose proof (test_stage_no_train p m (derived_numClasses p ls0)) as Hn.
      rewrite Forall_forall in Hn. specialize (Hn _ Hin). discriminate.
Qed.

End Stages.

(** ** Order of the points *)

Lemma tally_spec_perm (n : size_t) (pl pl' : list (size_t * size_t)) :
  pl ≡ₚ pl' -> tally_spec n pl = tally_spec n pl'.
Proof.
  intros H. unfold tally_spec. rewrite (forallb_perm _ _ _ H).
  destruct (forallb _ pl'); [| reflexivity].
  f_equal. f_equal; apply list_fmap_ext; intros _ c _; f_equal.
  - apply count_perm, H.
  - apply count_perm, H.
Qed.

Lemma accuracy_perm (n : size_t) (ps tl ps' tl' : list size_t) :
  length ps = length tl -> length ps' = length tl' ->
  zip ps tl ≡ₚ zip ps' tl' ->
  tally n ps tl = tally n ps' tl' /\ accuracy n ps tl = accuracy n ps' tl'.
Proof.
  intros H1 H2 HP.
  assert (Ht : tally n ps tl = tally n ps' tl').
  { rewrite !tally_eq_spec by assumption. now apply tally_spec_perm. }
  split; [exact Ht |].
  assert (Hlen : length ps = length ps').
  { apply Permutation_length in HP. rewrite !length_zip_with in HP. lia. }
  unfold accuracy. now rewrite Ht, Hlen.
Qed.

(** * The claims *)

(** C2 (as amended): for predictions and test labels of equal length (fewer
    than 2^64 of them) whose labels all lie below the class count, the report
    shows for each class the points of that class predicted correctly out of
    the points of that class, the former never above the latter, so that the
    per-class accuracy lies in [0,1] for a class that occurs among the test
    labels and is NaN (0/0) for one that does not; the per-class correct
    counts add up to the total, which is the number of indices where
    prediction and label agree, is at most the number of predictions, and
    gives an aggregate accuracy in [0,1] when there is a prediction at all. *)
Theorem C2_accuracy_report (numClasses : size_t) (ps tl : list size_t) :
  length ps = length tl ->
  N.of_nat (length ps) < 2 ^ 64 ->
  Forall (fun l => l < numClasses) tl ->
  let pl := zip ps tl in
  let n := N.of_nat (length ps) in
  accuracy numClasses ps tl
  = (class_lines numClasses pl
       ++ [Info (InfoTotal (match_count pl) n (fdiv (match_count pl) n))],
     Ok tt)
  /\ (forall c, c < numClasses ->
        hit_count c pl <= label_count c pl
        /\ (label_count c pl <> 0 ->
            in_unit (fdiv (hit_count c pl) (label_count c pl)))
        /\ (label_count c pl = 0 ->
            fdiv (hit_count c pl) (label_count c pl) = NaN))
  /\ sumN ((fun c => hit_count c pl) <$> classes numClasses) = match_count pl
  /\ match_count pl <= n
  /\ (ps <> [] -> in_unit (fdiv (match_count pl) n)).
Proof.
  intros Hlen Hn Hall pl n.
  assert (Hz : N.of_nat (length pl) = n).
  { unfold pl, n. rewrite length_zip_with. f_equal. lia. }
  split; [now apply accuracy_in_bounds |].
  split; [| split; [| split]].
  - intros c _. pose proof (hit_le_label c pl) as Hle.
    split; [exact Hle |]. split.
    + intros Hne. now apply fdiv_in_unit.
    + intros Hz0. rewrite Hz0 in *. now apply fdiv_zero_divisor.
  - apply sum_hit_count. apply forallb_below; [exact Hlen |].
    eapply Forall_impl; [exact Hall |]. intros l Hl. cbn in Hl. lia.
  - rewrite <- Hz. apply match_le_length.
  - intros Hne. apply fdiv_in_unit.
    + rewrite <- Hz. apply match_le_length.
    + unfold n. destruct ps; [contradiction | discriminate].
Qed.

Lemma C2_accuracy_report_witness :
  accuracy 2 [0; 1; 1] [0; 1; 0]
  = ([Info (InfoAccuracy 0 1 2 (Quot (1 # 2)));
      Info (InfoAccuracy 1 1 1 (Quot (1 # 1)));
      Info (InfoTotal 2 3 (Quot (2 # 3)))], Ok tt).
Proof.
  refine (proj1 (C2_accuracy_report 2 [0; 1; 1] [0; 1; 0] _ _ _)).
  - reflexivity.
  - reflexivity.
  - repeat constructor.
Defined.

(** C2 (as stated) fails: with two classes known from training and a test
    set that holds class 0 only, the line for class 1 reports 0/0. *)
Lemma C2_counterexample :
  length [0] = length [0]
  /\ ~ reports_within_unit
        (log_of (accuracy (NumberOfClasses 0 [0; 1]) [0] [0])).
Proof.
  split; [reflexivity |]. intros H.
  apply (H (Info (InfoAccuracy 1 0 0 NaN)) NaN).
  - vm_compute. right. left.
  - reflexivity.
Qed.

(** C8: the class count does not depend on the order of the labels, and
    the counters of the accuracy report (per class and in total) do not
    depend on the order of the test points: permuting predictions and test
    labels together leaves the counting loop's result and the whole report
    unchanged. *)
Theorem C8_order_independent :
  (forall n (l l' : list size_t),
      l ≡ₚ l' -> NumberOfClasses n l = NumberOfClasses n l')
  /\ (forall n (ps tl ps' tl' : list size_t),
        length ps = length tl -> length ps' = length tl' ->
        zip ps tl ≡ₚ zip ps' tl' ->
        tally n ps tl = tally n ps' tl'
        /\ accuracy n ps tl = accuracy n ps' tl').
Proof.
  split.
  - intros n l l' H. now apply NumberOfClasses_perm.
  - intros n ps tl ps' tl' H1 H2 HP. now apply accuracy_perm.
Qed.

Lemma C8_order_independent_witness :
  NumberOfClasses 0 [1; 0; 2; 0] = NumberOfClasses 0 [0; 1; 2; 0]
  /\ tally 3 [1; 0; 2] [2; 0; 2] = tally 3 [0; 1; 2] [0; 2; 2].
Proof.
  split.
  - apply (proj1 C8_order_independent 0 [1; 0; 2; 0] [0; 1; 2; 0]).
    apply perm_swap.
  - apply (proj2 C8_order_independent 3 [1; 0; 2] [2; 0; 2] [0; 1; 2] [0; 2; 2]).
    + reflexivity.
    + reflexivity.
    + apply perm_swap.
Defined.

(** ** Runs that differ in their warnings *)

Lemma drop_warnings_app (l1 l2 : list event) :
  drop_warnings (l1 ++ l2) = drop_warnings l1 ++ drop_warnings l2.
Proof. apply filter_app. Qed.

Lemma drop_warnings_warn (ws : list event) :
  Forall (fun e => is_warn e) ws -> drop_warnings ws = [].
Proof.
  induction 1 as [| e ws He _ IH]; [reflexivity |].
  unfold drop_warnings. rewrite filter_cons_False; [exact IH |].
  destruct (is_warn e); [tauto | contradiction].
Qed.

Lemma sbw_refl {A} (m : M A) : same_but_warnings m m.
Proof. split; reflexivity. Qed.

Lemma sbw_bind {A B} (m m' : M A) (k k' : A -> M B) :
  same_but_warnings m m' ->
  (forall a, same_but_warnings (k a) (k' a)) ->
  same_but_warnings (m ≫= k) (m' ≫= k').
Proof.
  destruct m as [l r], m' as [l' r']. intros [Hl Hr] Hk.
  cbn [log_of outcome fst snd] in Hl, Hr. subst r'.
  destruct r as [a | f |]; cbn [mbind M_bind].
  - specialize (Hk a). destruct Hk as [Hkl Hkr].
    destruct (k a) as [la ra], (k' a) as [la' ra'].
    cbn [log_of outcome fst snd] in *.
    split; cbn [log_of outcome fst snd]; [| exact Hkr].
    rewrite !drop_warnings_app. congruence.
  - split; assumption || reflexivity.
  - split; assumption || reflexivity.
Qed.

Lemma sbw_checked_true (m m' : M unit) :
  checked true m -> checked true m' -> same_but_warnings m m'.
Proof.
  intros (ws & W & ->) (ws' & W' & ->). split; [| reflexivity].
  cbn [log_of fst]. now rewrite !drop_warnings_warn.
Qed.

Lemma sbw_validate (p p' : Params) :
  same_but_step_shuffle p p' ->
  ge_zero (get_step_size p) = true -> ge_zero (get_step_size p') = true ->
  same_but_warnings (validate p) (validate p').
Proof.
  intros H Hs Hs'. destruct p, p'. unfold same_but_step_shuffle in H.
  cbn in H. destruct H as (? & ? & ? & ? & ? & ? & ? & ? & ? & ? & ? & ? & ?
                           & ? & ?). subst.
  unfold validate.
  repeat (apply sbw_bind; [apply sbw_refl | intros _]).
  apply sbw_bind.
  - apply sbw_checked_true.
    + eapply checked_eq; [exact Hs | apply checked_RequireParamValue].
    + eapply checked_eq; [exact Hs' | apply checked_RequireParamValue].
  - intros _.
    apply sbw_checked_true;
      repeat first [ apply checked_bind_true
                   | apply checked_when_warn
                   | apply checked_when_true ].
Qed.

Lemma run_ignores_step_shuffle conv dm Train Classify Scores openmp share
    (p p' : Params) :
  same_but_step_shuffle p p' ->
  get_optimizer p = "lbfgs"%string ->
  run conv dm Train Classify Scores openmp share p
  = run conv dm Train Classify Scores openmp share p'.
Proof.
  intros H Ho. destruct p, p'. unfold same_but_step_shuffle in H.
  cbn in H. destruct H as (? & ? & ? & ? & ? & ? & ? & ? & ? & ? & ? & ? & ?
                           & ? & ?). subst.
  unfold get_optimizer in Ho. cbn [optimizer] in Ho.
  unfold run, load_labels, train, classify_test, derived_numClasses,
    get_optimizer, get_lambda, get_delta, get_tolerance, get_max_iterations,
    get_number_of_classes.
  cbn [training labels lambda delta number_of_classes no_intercept optimizer
       tolerance max_iterations input_model output_model test test_labels
       predictions score].
  rewrite Ho. reflexivity.
Qed.

Lemma tally_no_classes (ps tl : list size_t) :
  length ps = length tl -> ps <> [] -> tally 0 ps tl = None.
Proof.
  intros Hlen Hne. rewrite tally_eq_spec by exact Hlen.
  destruct ps as [| a ps]; [contradiction |].
  destruct tl as [| b tl]; [discriminate |].
  unfold tally_spec. cbn [zip zip_with forallb snd].
  now destruct b.
Qed.

Lemma outcome_seq_checked {B} (m : M unit) (k : M B) :
  checked true m -> outcome (m ;; k) = outcome k.
Proof.
  intros (ws & _ & ->). cbn [mbind M_bind]. now destruct k.
Qed.

(** When the checks before it pass, an unknown optimizer is what the run
    stops on. *)
Lemma validate_unknown_optimizer (p : Params) :
  HasParam (training p) || HasParam (input_model p) = true ->
  (get_max_iterations p >=? 0)%Z = true ->
  ge_zero (get_tolerance p) = true ->
  get_optimizer p ∉ ["lbfgs"; "psgd"]%string ->
  outcome (validate p) = Fatal (FatalParam "optimizer" "unknown optimizer").
Proof.
  intros Hp Hm Ht Ho. unfold validate.
  rewrite outcome_seq_checked.
  2: { eapply checked_eq; [| apply checked_RequireAtLeastOnePassed].
       cbn [existsb id]. now rewrite orb_false_r. }
  rewrite outcome_seq_checked by apply checked_advice.
  rewrite !outcome_seq_checked by apply checked_ReportIgnoredParam.
  rewrite outcome_seq_checked
    by (eapply checked_eq; [| apply checked_RequireParamValue]; exact Hm).
  rewrite outcome_seq_checked
    by (eapply checked_eq; [| apply checked_RequireParamValue]; exact Ht).
  unfold RequireParamInSet. now rewrite bool_decide_eq_false_2.
Qed.

Lemma valid_true (p : Params) :
  valid p = true ->
  HasParam (training p) || HasParam (input_model p) = true
  /\ (get_max_iterations p >=? 0)%Z = true
  /\ ge_zero (get_tolerance p) = true
  /\ get_optimizer p ∈ ["lbfgs"; "psgd"]%string
  /\ ge_zero (get_lambda p) = true
  /\ (get_number_of_classes p >=? 0)%Z = true
  /\ ge_zero (get_delta p) = true
  /\ ge_zero (get_step_size p) = true.
Proof.
  unfold valid. rewrite !andb_true_iff, bool_decide_eq_true. tauto.
Qed.

Lemma valid_intro (p : Params) :
  HasParam (training p) || HasParam (input_model p) = true ->
  (get_max_iterations p >=? 0)%Z = true ->
  ge_zero (get_tolerance p) = true ->
  get_optimizer p ∈ ["lbfgs"; "psgd"]%string ->
  ge_zero (get_lambda p) = true ->
  (get_number_of_classes p >=? 0)%Z = true ->
  ge_zero (get_delta p) = true ->
  ge_zero (get_step_size p) = true ->
  valid p = true.
Proof.
  intros. unfold valid. rewrite !andb_true_iff, bool_decide_eq_true. tauto.
Qed.

(** Removing the last row. *)
Lemma shed_last_row (m : mat) :
  (1 <= n_rows m)%nat ->
  mat_rows m = mat_rows (shed_row m (n_rows m - 1)) ++ [row m (n_rows m - 1)]
  /\ n_cols (shed_row m (n_rows m - 1)) = n_cols m
  /\ S (n_rows (shed_row m (n_rows m - 1))) = n_rows m.
Proof.
  unfold n_rows, shed_row, row. destruct m as [c rows]. cbn [mat_rows n_cols].
  intros H. destruct rows as [| r rows _] using rev_ind; [cbn in H; lia |].
  rewrite length_app. cbn [length].
  replace (length rows + 1 - 1)%nat with (length rows) by lia.
  rewrite list_lookup_middle by reflexivity.
  rewrite delete_middle, app_nil_r. cbn [default from_option id].
  repeat split. lia.
Qed.

Section Claims.

Variable conv_to_size_t : double -> size_t.
Variable default_model : LinearSVM.
Variable Train :
  LinearSVM -> mat -> list size_t -> size_t -> Optimizer -> LinearSVM.
Variable Classify : LinearSVM -> mat -> list size_t.
Variable ClassifyScores : LinearSVM -> mat -> mat.
Variable HAS_OPENMP : bool.
Variable threadShareSize : nat -> size_t.

Let main :=
  mlpackMain conv_to_size_t default_model Train Classify ClassifyScores
    HAS_OPENMP threadShareSize.
Let body :=
  run conv_to_size_t default_model Train Classify ClassifyScores HAS_OPENMP
    threadShareSize.
Let load := load_labels conv_to_size_t.
Let training_stage := train Train HAS_OPENMP threadShareSize.
Let test_stage := classify_test Classify ClassifyScores.

Lemma main_valid (p : Params) :
  valid p = true ->
  exists ws, Forall (fun e => is_warn e) ws
    /\ main p = (ws ++ log_of (body p), outcome (body p)).
Proof.
  intros Hv.
  destruct (mlpackMain_cases conv_to_size_t default_model Train Classify
              ClassifyScores HAS_OPENMP threadShareSize p) as (ws & W & H).
  rewrite Hv in H. destruct H as [_ H]. now exists ws.
Qed.

Lemma main_invalid (p : Params) :
  valid p = false ->
  exists ws f, Forall (fun e => is_warn e) ws /\ main p = (ws, Fatal f).
Proof.
  intros Hv.
  destruct (mlpackMain_cases conv_to_size_t default_model Train Classify
              ClassifyScores HAS_OPENMP threadShareSize p) as (ws & W & H).
  rewrite Hv in H. destruct H as (f & _ & H). now exists ws, f.
Qed.

Lemma warn_elem (ws : list event) (e : event) :
  Forall (fun e => is_warn e) ws -> e ∈ ws -> is_warn e = true.
Proof.
  intros W Hin. rewrite Forall_forall in W. specialize (W _ Hin).
  now destruct (is_warn e).
Qed.

Lemma main_train_events (p : Params) d ls nc opt :
  CallTrain d ls nc opt ∈ log_of (main p) ->
  valid p = true
  /\ load p (default empty_mat (training p)) = ([], Ok (d, ls))
  /\ nc = derived_numClasses p ls
  /\ (opt = lbfgs_of p /\ get_optimizer p = "lbfgs"%string
      \/ opt = psgd_of threadShareSize p d
         /\ get_optimizer p = "psgd"%string).
Proof.
  intros Hin. destruct (valid p) eqn:Hv.
  - split; [reflexivity |].
    destruct (main_valid p Hv) as (ws & W & E). rewrite E in Hin.
    cbn [log_of fst] in Hin. apply elem_of_app in Hin as [Hin | Hin].
    + pose proof (warn_elem _ _ W Hin). discriminate.
    + eapply run_train_events. exact Hin.
  - destruct (main_invalid p Hv) as (ws & f & W & E). rewrite E in Hin.
    pose proof (warn_elem _ _ W Hin). discriminate.
Qed.

(** C1: with [number_of_classes] unspecified or 0 the class count the
    program works with is the number of distinct values of the label
    vector (3 for the labels 0,0,1,2); a positive [number_of_classes] is
    used as it is; and this is the count every training call of a run
    receives for the labels it trains on. *)
Theorem C1_class_count (p : Params) (ls : list size_t) :
  (number_of_classes p = None \/ number_of_classes p = Some 0%Z ->
   derived_numClasses p ls = distinct_values ls)
  /\ (forall c, number_of_classes p = Some c -> (0 < c < 2 ^ 31)%Z ->
        derived_numClasses p ls = Z.to_N c)
  /\ derived_numClasses no_params [0; 0; 1; 2] = 3
  /\ (forall d ls' nc opt,
        CallTrain d ls' nc opt ∈ log_of (main p) ->
        nc = derived_numClasses p ls').
Proof.
  split; [| split; [| split]].
  - intros H. unfold derived_numClasses, get_number_of_classes.
    destruct H as [-> | ->]; apply NumberOfClasses_zero.
  - intros c Hc Hr. unfold derived_numClasses, get_number_of_classes.
    rewrite Hc. cbn [default from_option id].
    rewrite size_t_of_int_pos by lia. apply NumberOfClasses_pos. lia.
  - vm_compute. reflexivity.
  - intros d ls' nc opt Hin. now apply main_train_events in Hin.
Qed.

(** C3 (as amended): in a run that supplies a test matrix and gets as
    far as the test stage (the parameter checks pass, the labels load and
    the training, if any, succeeds), the program stops with the
    dimensionality message, before it classifies anything, exactly when
    the row count of the test matrix differs from the row count of the
    parameter matrix minus one, taken in unsigned 64-bit arithmetic (the
    plain difference whenever the parameter matrix has a row); when the
    two agree the test set is classified. *)
Theorem C3_test_dimensionality (p : Params) (t d : mat) (ls : list size_t)
    (tlog : list event) (model : LinearSVM) :
  test p = Some t ->
  valid p = true ->
  load p (default empty_mat (training p)) = ([], Ok (d, ls)) ->
  training_stage p (default default_model (input_model p)) d ls
    (derived_numClasses p ls) = (tlog, Ok model) ->
  let dim := uword_pred (n_rows (Parameters model)) in
  (outcome (main p) = Fatal (FatalTestDim (N.of_nat (n_rows t)) dim)
   <-> N.of_nat (n_rows t) <> dim)
  /\ (N.of_nat (n_rows t) <> dim ->
      Forall (fun e => is_classify e = false) (log_of (main p)))
  /\ (N.of_nat (n_rows t) = dim -> CallClassify t ∈ log_of (main p))
  /\ ((0 < n_rows (Parameters model))%nat ->
      N.of_nat (n_rows (Parameters model)) < 2 ^ 64 ->
      dim = N.of_nat (n_rows (Parameters model)) - 1).
Proof.
  intros Ht Hv Hl Htr dim.
  destruct (main_valid p Hv) as (ws & W & E).
  unfold body in E.
  rewrite (run_trained conv_to_size_t default_model Train Classify
             ClassifyScores HAS_OPENMP threadShareSize p d ls tlog model
             Hl Htr) in E.
  rewrite (classify_test_spec Classify ClassifyScores p model _ t Ht) in E.
  fold dim in E.
  pose proof (train_log Train HAS_OPENMP threadShareSize p
                (default default_model (input_model p)) d ls
                (derived_numClasses p ls)) as Htl.
  fold training_stage in Htl. rewrite Htr in Htl. cbn [log_of fst] in Htl.
  pose proof (accuracy_log (derived_numClasses p ls) (Classify model t))
    as Hacc.
  destruct (N.eqb_spec (N.of_nat (n_rows t)) dim) as [Heq | Hne];
    cbn [negb] in E.
  - assert (Hout : forall a b, outcome (main p) <> Fatal (FatalTestDim a b)).
    { intros a b. rewrite E. cbn [outcome snd].
      destruct (test_labels p) as [tl |]; [| discriminate].
      destruct (negb (n_cols t =? length tl)%nat); [discriminate |].
      destruct (Hacc tl) as [_ Hf].
      destruct (accuracy _ (Classify model t) tl) as [alog [[] | f |]];
        cbn in Hf |- *; discriminate. }
    assert (Hin : CallClassify t ∈ log_of (main p)).
    { rewrite E. cbn [log_of fst]. apply elem_of_app. right.
      apply elem_of_app. right.
      destruct (test_labels p) as [tl |].
      - destruct (negb (n_cols t =? length tl)%nat).
        + cbn [log_of fst]. apply elem_of_app. right. left.
        + destruct (accuracy _ (Classify model t) tl) as [alog [[] | f |]];
            cbn [log_of fst]; apply elem_of_app; right;
            apply elem_of_app; left; left.
      - cbn [log_of fst]. apply elem_of_app. right.
        apply elem_of_app. left. left. }
    split; [| split; [| split]].
    + split; [intros H; now apply Hout in H | intros H; contradiction].
    + intros H. contradiction.
    + intros _. exact Hin.
    + apply uword_pred_pos.
  - split; [| split; [| split]].
    + split; [intros _; exact Hne | intros _; now rewrite E].
    + intros _. rewrite E. cbn [log_of fst]. rewrite app_nil_r.
      apply Forall_app. split.
      * eapply Forall_impl; [exact W |]. now intros [].
      * eapply Forall_impl; [exact Htl |]. cbn. tauto.
    + intros H. contradiction.
    + apply uword_pred_pos.
Qed.

(** C4: a labels vector passed beside a training matrix with another
    number of columns ends the run fatally, with a message, before any
    training (with the labels message when the parameter checks pass); and
    test labels passed beside a test matrix with another number of columns
    end the run fatally, with a message, before any accuracy is
    reported. *)
Theorem C4_label_count_mismatch (p : Params) :
  (forall tr ls,
      training p = Some tr -> labels p = Some ls ->
      n_cols tr <> length ls ->
      exists f, outcome (main p) = Fatal f
        /\ fatal_message f <> EmptyString
        /\ Forall (fun e => is_train e = false) (log_of (main p))
        /\ (valid p = true -> f = FatalLabels))
  /\ (forall t tl,
        test p = Some t -> test_labels p = Some tl ->
        n_cols t <> length tl ->
        exists f, outcome (main p) = Fatal f
          /\ fatal_message f <> EmptyString
          /\ Forall (fun e => is_accuracy e = false) (log_of (main p))).
Proof.
  split.
  - intros tr ls Htr Hls Hne. destruct (valid p) eqn:Hv.
    + destruct (main_valid p Hv) as (ws & W & E).
      assert (Hl : load p (default empty_mat (training p))
                   = ([], Fatal FatalLabels)).
      { unfold load. rewrite load_labels_spec, Htr, Hls.
        cbn [default from_option id].
        now rewrite (proj2 (Nat.eqb_neq _ _) Hne). }
      unfold body in E.
      rewrite (run_load_fatal conv_to_size_t default_model Train Classify
                 ClassifyScores HAS_OPENMP threadShareSize p _ Hl) in E.
      exists FatalLabels. rewrite E. cbn [outcome log_of fst snd].
      rewrite app_nil_r. repeat split; try discriminate.
      eapply Forall_impl; [exact W |]. now intros [].
    + destruct (main_invalid p Hv) as (ws & f & W & E).
      exists f. rewrite E. cbn [outcome log_of fst snd].
      repeat split; [apply fatal_message_nonempty | | discriminate].
      eapply Forall_impl; [exact W |]. now intros [].
  - intros t tl Ht Htl Hne. destruct (valid p) eqn:Hv.
    2: { destruct (main_invalid p Hv) as (ws & f & W & E).
         exists f. rewrite E. cbn [outcome log_of fst snd].
         repeat split; [apply fatal_message_nonempty |].
         eapply Forall_impl; [exact W |]. now intros []. }
    destruct (main_valid p Hv) as (ws & W & E).
    assert (Hw : Forall (fun e => is_accuracy e = false) ws).
    { eapply Forall_impl; [exact W |]. now intros []. }
    unfold body in E.
    destruct (load_cases conv_to_size_t p (default empty_mat (training p)))
      as [[f Hl] | (d & ls & Hl)].
    { rewrite (run_load_fatal conv_to_size_t default_model Train Classify
                 ClassifyScores HAS_OPENMP threadShareSize p _ Hl) in E.
      exists f. rewrite E. cbn [outcome log_of fst snd]. rewrite app_nil_r.
      repeat split; [apply fatal_message_nonempty | exact Hw]. }
    pose proof (train_log Train HAS_OPENMP threadShareSize p
                  (default default_model (input_model p)) d ls
                  (derived_numClasses p ls)) as Hlog.
    assert (Hlog' : Forall (fun e => is_accuracy e = false)
                      (log_of (train Train HAS_OPENMP threadShareSize p
                                 (default default_model (input_model p))
                                 d ls (derived_numClasses p ls)))).
    { eapply Forall_impl; [exact Hlog |]. cbn. tauto. }
    clear Hlog.
    destruct (train_cases Train HAS_OPENMP threadShareSize p
                (default default_model (input_model p)) d ls
                (derived_numClasses p ls))
      as [(tlog & f & Htr) | (tlog & m & Htr)]; rewrite Htr in Hlog'.
    { rewrite (run_train_fatal conv_to_size_t default_model Train Classify
                 ClassifyScores HAS_OPENMP threadShareSize p _ _ _ _ Hl Htr)
        in E.
      exists f. rewrite E. cbn [outcome log_of fst snd].
      repeat split; [apply fatal_message_nonempty |].
      apply Forall_app. now split. }
    rewrite (run_trained conv_to_size_t default_model Train Classify
               ClassifyScores HAS_OPENMP threadShareSize p _ _ _ _ Hl Htr)
      in E.
    rewrite (classify_test_spec Classify ClassifyScores p m _ t Ht) in E.
    rewrite Htl, (proj2 (Nat.eqb_neq _ _) Hne) in E. cbn [negb] in E.
    destruct (negb (N.of_nat (n_rows t) =? _)).
    + eexists. rewrite E. cbn [outcome log_of hand_back fst snd].
      repeat split; [apply fatal_message_nonempty |].
      rewrite app_nil_r. apply Forall_app. now split.
    + eexists. rewrite E. cbn [outcome log_of hand_back fst snd].
      repeat split; [apply fatal_message_nonempty |].
      apply Forall_app. split; [exact Hw |].
      apply Forall_app. split; [exact Hlog' |].
      destruct (score p); forall_events ltac:(reflexivity).
Qed.

(** C5: in a run with a training matrix and no labels parameter, fewer
    than two rows end the run fatally before any training; otherwise
    whatever is trained is trained on the matrix without its last row
    (same columns, one row fewer) with the converted last row as labels,
    and this training does take place when the parameter checks pass and
    the chosen optimizer is there (L-BFGS, or any with OpenMP). *)
Theorem C5_labels_from_last_row (p : Params) (tr : mat) :
  training p = Some tr -> labels p = None ->
  ((n_rows tr < 2)%nat ->
     is_fatal (outcome (main p)) = true
     /\ Forall (fun e => is_train e = false) (log_of (main p)))
  /\ ((2 <= n_rows tr)%nat ->
      let last := row tr (n_rows tr - 1) in
      (forall d ls nc opt,
          CallTrain d ls nc opt ∈ log_of (main p) ->
          d = shed_row tr (n_rows tr - 1)
          /\ ls = conv_to_size_t <$> last
          /\ mat_rows tr = mat_rows d ++ [last]
          /\ n_cols d = n_cols tr
          /\ S (n_rows d) = n_rows tr)
      /\ (valid p = true ->
          get_optimizer p = "lbfgs"%string \/ HAS_OPENMP = true ->
          exists opt,
            CallTrain (shed_row tr (n_rows tr - 1))
              (conv_to_size_t <$> last)
              (derived_numClasses p (conv_to_size_t <$> last)) opt
            ∈ log_of (main p))).
Proof.
  intros Htr Hls.
  assert (Hload : load p (default empty_mat (training p))
                  = if (n_rows tr <? 2)%nat then ([], Fatal FatalRows)
                    else ([], Ok (shed_row tr (n_rows tr - 1),
                                  conv_to_size_t <$> row tr (n_rows tr - 1)))).
  { unfold load. rewrite load_labels_spec, Htr, Hls. reflexivity. }
  split.
  - intros Hlt. rewrite (proj2 (Nat.ltb_lt _ _) Hlt) in Hload.
    destruct (valid p) eqn:Hv.
    + destruct (main_valid p Hv) as (ws & W & E). unfold body in E.
      rewrite (run_load_fatal conv_to_size_t default_model Train Classify
                 ClassifyScores HAS_OPENMP threadShareSize p _ Hload) in E.
      rewrite E. cbn [outcome log_of fst snd]. rewrite app_nil_r.
      split; [reflexivity |].
      eapply Forall_impl; [exact W |]. now intros [].
    + destruct (main_invalid p Hv) as (ws & f & W & E). rewrite E.
      split; [reflexivity |]. cbn [log_of fst].
      eapply Forall_impl; [exact W |]. now intros [].
  - intros Hge last. rewrite (proj2 (Nat.ltb_ge _ _) Hge) in Hload.
    split.
    + intros d ls nc opt Hin.
      apply main_train_events in Hin as (_ & Hl & _). fold load in Hl.
      rewrite Hload in Hl. injection Hl as <- <-.
      destruct (shed_last_row tr) as (H1 & H2 & H3); [lia |]. auto.
    + intros Hv Hopt. destruct (main_valid p Hv) as (ws & W & E).
      apply valid_true in Hv as (_ & _ & _ & Ho & _).
      assert (Hs : exists opt m,
                 training_stage p (default default_model (input_model p))
                   (shed_row tr (n_rows tr - 1)) (conv_to_size_t <$> last)
                   (derived_numClasses p (conv_to_size_t <$> last))
                 = ([Info InfoTrainLBFGS;
                     CallTrain (shed_row tr (n_rows tr - 1))
                       (conv_to_size_t <$> last)
                       (derived_numClasses p (conv_to_size_t <$> last)) opt],
                    Ok m)
                 \/ training_stage p
                      (default default_model (input_model p))
                      (shed_row tr (n_rows tr - 1)) (conv_to_size_t <$> last)
                      (derived_numClasses p (conv_to_size_t <$> last))
                    = ([Info InfoTrainPSGD;
                        CallTrain (shed_row tr (n_rows tr - 1))
                          (conv_to_size_t <$> last)
                          (derived_numClasses p (conv_to_size_t <$> last))
                          opt],
                       Ok m)).
      { unfold training_stage. rewrite train_spec, Htr. cbn [HasParam].
        apply elem_of_cons in Ho as [Ho | Ho].
        - rewrite Ho. cbn [String.eqb Ascii.eqb Bool.eqb]. eauto.
        - apply elem_of_cons in Ho as [Ho | Ho]; [| inversion Ho].
          destruct Hopt as [Hopt | Hopt]; [congruence |].
          rewrite Ho, Hopt. cbn [String.eqb Ascii.eqb Bool.eqb]. eauto. }
      unfold body in E.
      destruct Hs as (opt & m & [Hs | Hs]);
        rewrite (run_trained conv_to_size_t default_model Train Classify
                   ClassifyScores HAS_OPENMP threadShareSize p _ _ _ _
                   Hload Hs) in E;
        exists opt; rewrite E; cbn [log_of fst];
        apply elem_of_app; right; apply elem_of_app; left; right; left.
Qed.

(** C6: an [optimizer] other than 'lbfgs' and 'psgd' ends the run
    fatally, with a message, before anything is trained or classified; the
    message is that of the optimizer check when the checks made before it
    pass. *)
Theorem C6_unknown_optimizer (p : Params) (s : string) :
  optimizer p = Some s ->
  s <> "lbfgs"%string -> s <> "psgd"%string ->
  exists f, outcome (main p) = Fatal f
    /\ fatal_message f <> EmptyString
    /\ Forall (fun e => is_train e = false /\ is_classify e = false)
         (log_of (main p))
    /\ (HasParam (training p) || HasParam (input_model p) = true ->
        (get_max_iterations p >=? 0)%Z = true ->
        ge_zero (get_tolerance p) = true ->
        f = FatalParam "optimizer" "unknown optimizer").
Proof.
  intros Ho H1 H2.
  assert (Hnot : get_optimizer p ∉ ["lbfgs"; "psgd"]%string).
  { unfold get_optimizer. rewrite Ho. cbn [default from_option id].
    intros Hin.
    apply elem_of_cons in Hin as [Hin | Hin]; [contradiction |].
    apply elem_of_cons in Hin as [Hin | Hin]; [contradiction |].
    inversion Hin. }
  assert (Hv : valid p = false).
  { destruct (valid p) eqn:Hv; [| reflexivity].
    apply valid_true in Hv as (_ & _ & _ & Hin & _). contradiction. }
  destruct (mlpackMain_cases conv_to_size_t default_model Train Classify
              ClassifyScores HAS_OPENMP threadShareSize p) as (ws & W & H).
  rewrite Hv in H. destruct H as (f & Hval & E). fold main in E.
  exists f. rewrite E. cbn [outcome log_of fst snd].
  split; [reflexivity |]. split; [apply fatal_message_nonempty |]. split.
  - eapply Forall_impl; [exact W |]. now intros [].
  - intros Hp Hm Ht.
    pose proof (validate_unknown_optimizer p Hp Hm Ht Hnot) as Hf.
    rewrite Hval in Hf. cbn [outcome snd] in Hf. congruence.
Qed.

(** C7: a negative [lambda], [delta], [tolerance] or [step_size], or a
    negative [max_iterations] or [number_of_classes], ends the run
    fatally, with a message, before anything is trained or classified;
    and zero passes the check of each of these parameters. *)
Theorem C7_negative_parameters (p : Params) :
  (negative (get_lambda p) = true \/ negative (get_delta p) = true
   \/ negative (get_tolerance p) = true
   \/ negative (get_step_size p) = true
   \/ (get_max_iterations p < 0)%Z \/ (get_number_of_classes p < 0)%Z ->
   exists f, outcome (main p) = Fatal f
     /\ fatal_message f <> EmptyString
     /\ Forall (fun e => is_train e = false /\ is_classify e = false)
          (log_of (main p)))
  /\ (forall s1 s2 s3 s4,
        lambda p = Some (S754_zero s1) -> delta p = Some (S754_zero s2) ->
        tolerance p = Some (S754_zero s3) ->
        step_size p = Some (S754_zero s4) ->
        max_iterations p = Some 0%Z -> number_of_classes p = Some 0%Z ->
        HasParam (training p) || HasParam (input_model p) = true ->
        get_optimizer p ∈ ["lbfgs"; "psgd"]%string ->
        valid p = true
        /\ exists ws, validate p = (ws, Ok tt)
             /\ Forall (fun e => is_warn e) ws).
Proof.
  split.
  - intros H.
    assert (Hv : valid p = false).
    { destruct (valid p) eqn:Hv; [| reflexivity].
      apply valid_true in Hv as (_ & Hm & Ht & _ & Hl & Hn & Hd & Hs).
      destruct H as [H | [H | [H | [H | [H | H]]]]];
        try (apply negative_not_ge_zero in H; congruence); lia. }
    destruct (main_invalid p Hv) as (ws & f & W & E).
    exists f. rewrite E. cbn [outcome log_of fst snd].
    repeat split; [apply fatal_message_nonempty |].
    eapply Forall_impl; [exact W |]. now intros [].
  - intros s1 s2 s3 s4 Hl Hd Ht Hs Hm Hn Hp Ho.
    assert (Hv : valid p = true).
    { apply valid_intro; trivial;
        unfold get_lambda, get_delta, get_tolerance, get_step_size,
          get_max_iterations, get_number_of_classes;
        rewrite ?Hl, ?Hd, ?Ht, ?Hs, ?Hm, ?Hn; reflexivity. }
    split; [exact Hv |].
    destruct (validate_checked p) as (ws & W & H). rewrite Hv in H.
    now exists ws.
Qed.

(** C9 (not met by the program): a run that only loads a model, leaves
    [number_of_classes] unspecified (or 0) and asks for the accuracy on a
    non-empty test set derives the class count 0 from the empty label
    vector, gives both counter arrays length 0, and leaves them at the
    first test point. *)
Theorem C9_model_only_out_of_bounds (p : Params) (m : LinearSVM) (t : mat)
    (tl : list size_t) :
  valid p = true ->
  training p = None -> input_model p = Some m ->
  number_of_classes p = None \/ number_of_classes p = Some 0%Z ->
  test p = Some t -> test_labels p = Some tl ->
  N.of_nat (n_rows t) = uword_pred (n_rows (Parameters m)) ->
  length tl = n_cols t ->
  length (Classify m t) = n_cols t ->
  (0 < n_cols t)%nat ->
  derived_numClasses p [] = 0
  /\ tally 0 (Classify m t) tl = None
  /\ outcome (main p) = OutOfBounds.
Proof.
  intros Hv Htr Hm Hnc Ht Htl Hdim Hlen Hpred Hpos.
  assert (H0 : derived_numClasses p [] = 0).
  { unfold derived_numClasses, get_number_of_classes.
    destruct Hnc as [-> | ->]; reflexivity. }
  assert (Htally : tally 0 (Classify m t) tl = None).
  { apply tally_no_classes; [lia |].
    intros E. rewrite E in Hpred. cbn in Hpred. lia. }
  split; [exact H0 |]. split; [exact Htally |].
  destruct (main_valid p Hv) as (ws & W & E). rewrite E.
  cbn [outcome snd]. unfold body.
  assert (Hl : load p (default empty_mat (training p))
               = ([], Ok (empty_mat, []))).
  { unfold load. rewrite load_labels_spec, Htr. reflexivity. }
  assert (Hs : training_stage p (default default_model (input_model p))
                 empty_mat [] (derived_numClasses p []) = ([], Ok m)).
  { unfold training_stage. rewrite train_spec, Htr, Hm. reflexivity. }
  rewrite (run_trained conv_to_size_t default_model Train Classify
             ClassifyScores HAS_OPENMP threadShareSize p _ _ _ _ Hl Hs).
  rewrite (classify_test_spec Classify ClassifyScores p m _ t Ht).
  rewrite Htl, Hdim, N.eqb_refl, Hlen, Nat.eqb_refl. cbn [negb].
  unfold accuracy. rewrite H0, Htally. reflexivity.
Qed.

(** C10 (as amended): with the optimizer 'lbfgs', two runs that differ
    only in [step_size] and [shuffle], each with a [step_size] that
    passes its check (not negative), end alike and leave the same log up
    to warnings, so train the same model; the optimizer of every training
    call is L-BFGS set up from [max_iterations] and [tolerance] alone. *)
Theorem C10_lbfgs_ignores_step_shuffle (p p' : Params) :
  same_but_step_shuffle p p' ->
  get_optimizer p = "lbfgs"%string ->
  ge_zero (get_step_size p) = true -> ge_zero (get_step_size p') = true ->
  same_but_warnings (main p) (main p')
  /\ (forall d ls nc opt,
        CallTrain d ls nc opt ∈ log_of (main p) ->
        opt = L_BFGS (size_t_of_int (get_max_iterations p))
                (get_tolerance p))
  /\ lbfgs_of p = lbfgs_of p'.
Proof.
  intros H Ho Hs Hs'. split; [| split].
  - unfold main, mlpackMain. apply sbw_bind.
    + now apply sbw_validate.
    + intros _. rewrite (run_ignores_step_shuffle _ _ _ _ _ _ _ p p' H Ho).
      apply sbw_refl.
  - intros d ls nc opt Hin.
    apply main_train_events in Hin as (_ & _ & _ & [[-> _] | [_ Hp]]).
    + reflexivity.
    + rewrite Ho in Hp. discriminate.
  - unfold lbfgs_of, get_max_iterations, get_tolerance.
    destruct H as (_ & _ & _ & _ & _ & _ & _ & -> & -> & _). reflexivity.
Qed.

End Claims.

(** * The claims on concrete runs *)

Lemma C1_class_count_witness :
  derived_numClasses no_params [0; 0; 1; 2] = distinct_values [0; 0; 1; 2]
  /\ derived_numClasses p_train_classes5 [0; 1] = 5.
Proof.
  split.
  - apply (proj1 (C1_class_count toy_conv toy_default_model toy_Train
                    toy_Classify toy_ClassifyScores false N.of_nat
                    no_params [0; 0; 1; 2])).
    left. reflexivity.
  - apply (proj1 (proj2 (C1_class_count toy_conv toy_default_model toy_Train
                           toy_Classify toy_ClassifyScores false N.of_nat
                           p_train_classes5 [0; 1])) 5%Z).
    + reflexivity.
    + lia.
Defined.

Lemma C3_test_dimensionality_witness :
  N.of_nat (n_rows test21) = uword_pred (n_rows (Parameters toy_model3))
  /\ CallClassify test21 ∈ log_of (toy_main false p_model_test).
Proof.
  split; [reflexivity |].
  refine (proj1 (proj2 (proj2
            (C3_test_dimensionality toy_conv toy_default_model toy_Train
               toy_Classify toy_ClassifyScores false N.of_nat
               p_model_test test21 empty_mat [] [] toy_model3 _ _ _ _))) _);
    reflexivity.
Defined.

(** C3 (as stated) fails: the rows of the test matrix are one fewer than
    the rows of the parameter matrix, and the run still ends fatally, on
    the count of the test labels. *)
Lemma C3_counterexample :
  test p_model_test_labels2 = Some test21
  /\ N.of_nat (n_rows test21) = N.of_nat (n_rows (Parameters toy_model3)) - 1
  /\ outcome (toy_main false p_model_test_labels2)
     = Fatal (FatalTestLabels 1 2).
Proof. repeat split. Qed.

Lemma C4_label_count_mismatch_witness :
  (exists f, outcome (toy_main false p_train_one_label) = Fatal f
     /\ fatal_message f <> EmptyString
     /\ Forall (fun e => is_train e = false)
          (log_of (toy_main false p_train_one_label))
     /\ (valid p_train_one_label = true -> f = FatalLabels))
  /\ (exists f, outcome (toy_main false p_model_test_labels2) = Fatal f
        /\ fatal_message f <> EmptyString
        /\ Forall (fun e => is_accuracy e = false)
             (log_of (toy_main false p_model_test_labels2))).
Proof.
  split.
  - apply (proj1 (C4_label_count_mismatch toy_conv toy_default_model toy_Train
                    toy_Classify toy_ClassifyScores false N.of_nat
                    p_train_one_label) train22 [0]).
    + reflexivity.
    + reflexivity.
    + vm_compute. lia.
  - apply (proj2 (C4_label_count_mismatch toy_conv toy_default_model toy_Train
                    toy_Classify toy_ClassifyScores false N.of_nat
                    p_model_test_labels2) test21 [0; 1]).
    + reflexivity.
    + reflexivity.
    + vm_compute. lia.
Defined.

Lemma C5_labels_from_last_row_witness :
  is_fatal (outcome (toy_main false p_train_one_row)) = true
  /\ exists opt,
       CallTrain (Mat 2 [[d_one; d_two]]) [0; 1] 2 opt
       ∈ log_of (toy_main false p_train).
Proof.
  split.
  - apply (proj1 (C5_labels_from_last_row toy_conv toy_default_model toy_Train
                    toy_Classify toy_ClassifyScores false N.of_nat
                    p_train_one_row (Mat 2 [[d_one; d_two]])
                    eq_refl eq_refl)).
    vm_compute. lia.
  - apply (proj2 (proj2 (C5_labels_from_last_row toy_conv toy_default_model
                           toy_Train toy_Classify toy_ClassifyScores false
                           N.of_nat p_train train22 eq_refl eq_refl)
                    ltac:(vm_compute; lia))).
    + reflexivity.
    + left. reflexivity.
Defined.

Lemma C6_unknown_optimizer_witness :
  exists f, outcome (toy_main true p_train_sgd) = Fatal f
    /\ fatal_message f <> EmptyString
    /\ Forall (fun e => is_train e = false /\ is_classify e = false)
         (log_of (toy_main true p_train_sgd))
    /\ (HasParam (training p_train_sgd) || HasParam (input_model p_train_sgd)
        = true ->
        (get_max_iterations p_train_sgd >=? 0)%Z = true ->
        ge_zero (get_tolerance p_train_sgd) = true ->
        f = FatalParam "optimizer" "unknown optimizer").
Proof.
  apply (C6_unknown_optimizer toy_conv toy_default_model toy_Train
           toy_Classify toy_ClassifyScores true N.of_nat p_train_sgd "sgd").
  - reflexivity.
  - discriminate.
  - discriminate.
Defined.

Lemma C7_negative_parameters_witness :
  (exists f, outcome (toy_main false p_train_lambda_neg) = Fatal f
     /\ fatal_message f <> EmptyString
     /\ Forall (fun e => is_train e = false /\ is_classify e = false)
          (log_of (toy_main false p_train_lambda_neg)))
  /\ (valid p_train_zeros = true
      /\ exists ws, validate p_train_zeros = (ws, Ok tt)
           /\ Forall (fun e => is_warn e) ws).
Proof.
  split.
  - apply (proj1 (C7_negative_parameters toy_conv toy_default_model toy_Train
                    toy_Classify toy_ClassifyScores false N.of_nat
                    p_train_lambda_neg)).
    left. reflexivity.
  - apply (proj2 (C7_negative_parameters toy_conv toy_default_model toy_Train
                    toy_Classify toy_ClassifyScores false N.of_nat
                    p_train_zeros) false false false false);
      try reflexivity.
    left.
Defined.

Lemma C9_model_only_out_of_bounds_witness :
  outcome (toy_main false p_model_test) = OutOfBounds.
Proof.
  refine (proj2 (proj2
            (C9_model_only_out_of_bounds toy_conv toy_default_model toy_Train
               toy_Classify toy_ClassifyScores false N.of_nat
               p_model_test toy_model3 test21 [0] _ _ _ _ _ _ _ _ _ _)));
    try reflexivity.
  - left. reflexivity.
  - vm_compute. lia.
Defined.

Lemma C10_lbfgs_ignores_step_shuffle_witness :
  same_but_warnings (toy_main false p_train) (toy_main false p_train_step0).
Proof.
  refine (proj1 (C10_lbfgs_ignores_step_shuffle toy_conv toy_default_model
                   toy_Train toy_Classify toy_ClassifyScores false N.of_nat
                   p_train p_train_step0 _ _ _ _)).
  - repeat split.
  - reflexivity.
  - reflexivity.
  - reflexivity.
Defined.

(** C10 (as stated) fails: with 'lbfgs', a negative [step_size] ends in
    the check of that parameter a run that trains when the step size is
    left alone. *)
Lemma C10_counterexample :
  same_but_step_shuffle p_train p_train_step_neg
  /\ get_optimizer p_train = "lbfgs"%string
  /\ (exists out, outcome (toy_main false p_train) = Ok out)
  /\ outcome (toy_main false p_train_step_neg)
     = Fatal (FatalParam "step_size" "step size must be positive")
  /\ ~ same_but_warnings (toy_main false p_train)
         (toy_main false p_train_step_neg).
Proof.
  split; [repeat split |]. split; [reflexivity |].
  split; [eexists; reflexivity |]. split; [reflexivity |].
  intros [_ H]. vm_compute in H. discriminate H.
Qed.

(** * Further properties of the class count and of the accuracy report *)

Lemma elem_of_classes (n c : size_t) : c ∈ classes n <-> c < n.
Proof.
  unfold classes. rewrite list_elem_of_fmap. split.
  - intros (k & -> & Hk). apply elem_of_seq in Hk. lia.
  - intros Hc. exists (N.to_nat c). split; [now rewrite N2Nat.id |].
    apply elem_of_seq. lia.
Qed.

Lemma NoDup_classes (n : size_t) : NoDup (classes n).
Proof.
  unfold classes. apply NoDup_fmap_2; [| apply NoDup_seq].
  intros a b H. now apply Nat2N.inj.
Qed.

Lemma length_classes (n : size_t) : length (classes n) = N.to_nat n.
Proof. unfold classes. now rewrite length_fmap, length_seq. Qed.

Lemma length_remove_dups_le (l : list N) :
  (length (remove_dups l) <= length l)%nat.
Proof.
  induction l as [| x l IH]; cbn; [lia |].
  destruct (decide_rel elem_of x l); cbn; lia.
Qed.

(** X1: the class count derived from a label vector is the empty count 0
    only for the empty vector, never exceeds the number of labels, and
    grows by one with each label not seen before. *)
Theorem X1_class_count_grows (x : size_t) (labels : list size_t) :
  NumberOfClasses 0 labels <= N.of_nat (length labels)
  /\ (NumberOfClasses 0 labels = 0 <-> labels = [])
  /\ NumberOfClasses 0 (x :: labels)
     = if bool_decide (x ∈ labels) then NumberOfClasses 0 labels
       else NumberOfClasses 0 labels + 1.
Proof.
  rewrite !NumberOfClasses_zero. unfold distinct_values.
  split; [| split].
  - pose proof (length_remove_dups_le labels). lia.
  - split.
    + intros H. destruct labels as [| y l]; [reflexivity |].
      assert (Hy : y ∈ remove_dups (y :: l))
        by (apply elem_of_remove_dups; left).
      destruct (remove_dups (y :: l)); [inversion Hy | discriminate].
    + intros ->. reflexivity.
  - cbn [remove_dups]. destruct (decide_rel elem_of x labels) as [Hin | Hin].
    + now rewrite bool_decide_eq_true_2.
    + rewrite bool_decide_eq_false_2 by assumption. cbn [length]. lia.
Qed.

(** X2: every label lies below the class count derived from the labels
    exactly when the labels use all the ids 0, 1, ..., count-1 with no gap;
    so the counters of the accuracy loop, sized by that count, hold the
    labels themselves as test labels exactly in that case. *)
Theorem X2_labels_below_count_iff_no_gap (labels : list size_t) :
  let k := NumberOfClasses 0 labels in
  (Forall (fun l => l < k) labels <-> (forall c, c < k -> c ∈ labels))
  /\ (forall ps, length ps = length labels ->
        (is_Some (tally k ps labels) <-> (forall c, c < k -> c ∈ labels))).
Proof.
  intros k.
  assert (Hk : k = N.of_nat (size (list_to_set labels : gset N))) by reflexivity.
  assert (HK : size (list_to_set (classes k) : gset N)
               = size (list_to_set labels : gset N)).
  { rewrite size_list_to_set by apply NoDup_classes.
    rewrite length_classes, Hk. apply Nat2N.id. }
  assert (Hiff : Forall (fun l => l < k) labels <-> (forall c, c < k -> c ∈ labels)).
  { split.
    - intros Hall c Hc.
      assert (Heq : (list_to_set labels : gset N) = list_to_set (classes k)).
      { apply set_subseteq_size_eq; [| lia].
        intros y Hy. apply elem_of_list_to_set in Hy.
        apply elem_of_list_to_set, elem_of_classes.
        rewrite Forall_forall in Hall. now apply Hall. }
      apply (elem_of_list_to_set (C := gset N)). rewrite Heq.
      now apply elem_of_list_to_set, elem_of_classes.
    - intros Hgap.
      assert (Heq : (list_to_set (classes k) : gset N) = list_to_set labels).
      { apply set_subseteq_size_eq; [| lia].
        intros y Hy. apply elem_of_list_to_set, elem_of_classes in Hy.
        now apply elem_of_list_to_set, Hgap. }
      apply Forall_forall. intros l Hl. apply elem_of_classes.
      apply (elem_of_list_to_set (C := gset N)). rewrite Heq.
      now apply elem_of_list_to_set. }
  split; [exact Hiff |].
  intros ps Hlen. rewrite <- Hiff. rewrite (tally_eq_spec _ _ _ Hlen).
  unfold tally_spec.
  destruct (forallb _ (zip ps labels)) eqn:Hb.
  - split; [| eauto]. intros _.
    apply (forallb_below k ps labels Hlen) in Hb.
    eapply Forall_impl; [exact Hb |]. intros l Hl. cbn in Hl. lia.
  - split; [intros [? ?]; discriminate |]. intros Hall.
    assert (Ht : forallb (fun x : N * N => x.2 <? k) (zip ps labels) = true).
    { apply forallb_below; [exact Hlen |].
      eapply Forall_impl; [exact Hall |]. intros l Hl. cbn in Hl. lia. }
    congruence.
Qed.

Lemma X2_labels_below_count_iff_no_gap_witness :
  is_Some (tally (NumberOfClasses 0 [1; 0; 1]) [0; 0; 1] [1; 0; 1]).
Proof.
  apply (proj2 (X2_labels_below_count_iff_no_gap [1; 0; 1]) [0; 0; 1]).
  - reflexivity.
  - intros c Hc. vm_compute in Hc.
    destruct c as [| [p | p |]]; try destruct p; try discriminate Hc.
    + right. left.
    + left.
Defined.

Lemma sum_label_count (n : size_t) (pl : list (size_t * size_t)) :
  forallb (fun x => x.2 <? n) pl = true ->
  sumN ((fun c => label_count c pl) <$> classes n) = N.of_nat (length pl).
Proof.
  unfold classes, label_count.
  induction pl as [| [p l] pl IH]; intros H.
  - apply sumN_zero.
  - simpl in H. apply andb_true_iff in H as [Hl H]. apply N.ltb_lt in Hl.
    cbn [count fst snd length]. rewrite sumN_add, (IH H), sum_indicator.
    rewrite bool_decide_eq_true_2 by lia. lia.
Qed.

Lemma match_count_all (ps tl : list size_t) :
  length ps = length tl ->
  (match_count (zip ps tl) = N.of_nat (length ps) <-> ps = tl).
Proof.
  revert tl. induction ps as [| p ps IH]; intros [| l tl] Hlen;
    try discriminate.
  - split; reflexivity.
  - injection Hlen as Hlen. specialize (IH tl Hlen).
    unfold match_count in *. cbn [zip zip_with count fst snd length].
    pose proof (count_le_length (fun x : N * N => x.1 =? x.2) (zip ps tl)) as Hle.
    rewrite length_zip_with in Hle.
    destruct (N.eqb_spec p l) as [-> | Hne].
    + split.
      * intros H. f_equal. apply IH. lia.
      * intros [= ->]. apply proj2 in IH. specialize (IH eq_refl). lia.
    + split; [intros H; lia | intros [= ? ?]; contradiction].
Qed.

Lemma match_count_none (ps tl : list size_t) :
  length ps = length tl ->
  (match_count (zip ps tl) = 0 <-> Forall2 (fun p l => p <> l) ps tl).
Proof.
  revert tl. induction ps as [| p ps IH]; intros [| l tl] Hlen;
    try discriminate.
  - split; [constructor | reflexivity].
  - injection Hlen as Hlen. specialize (IH tl Hlen).
    unfold match_count in *. cbn [zip zip_with count fst snd].
    destruct (N.eqb_spec p l) as [-> | Hne].
    + split; [intros H; lia |].
      intros H. apply Forall2_cons in H as [H _]. contradiction.
    + rewrite N.add_0_l, IH. split.
      * intros H. now constructor.
      * intros H. now apply Forall2_cons in H as [_ H].
Qed.

(** X3: for predictions and test labels of equal length the accuracy
    report is all or nothing: a test label at or above the class count
    takes the counting loop past the end of the counters before any line is
    written, and otherwise the report ends normally with one line per class
    and one for the total. *)
Theorem X3_accuracy_all_or_nothing (numClasses : size_t)
    (ps tl : list size_t) :
  length ps = length tl ->
  (Exists (fun l => numClasses <= l) tl ->
   accuracy numClasses ps tl = ([], OutOfBounds))
  /\ (Forall (fun l => l < numClasses) tl ->
      outcome (accuracy numClasses ps tl) = Ok tt
      /\ length (log_of (accuracy numClasses ps tl)) = S (N.to_nat numClasses)).
Proof.
  intros Hlen. unfold accuracy. rewrite (tally_eq_spec _ _ _ Hlen).
  unfold tally_spec. split.
  - intros Hex. destruct (forallb _ (zip ps tl)) eqn:Hb; [| reflexivity].
    apply (forallb_below numClasses ps tl Hlen) in Hb.
    rewrite Forall_forall in Hb. apply Exists_exists in Hex as (l & Hin & Hl).
    specialize (Hb l Hin). cbn in Hb. lia.
  - intros Hall.
    assert (Hb : forallb (fun x : N * N => x.2 <? numClasses) (zip ps tl) = true).
    { apply forallb_below; [exact Hlen |].
      eapply Forall_impl; [exact Hall |]. intros l Hl. cbn in Hl. lia. }
    rewrite Hb.
    rewrite report_from_spec;
      [| now rewrite drop_0, !length_fmap | reflexivity].
    cbn [outcome log_of fst snd]. split; [reflexivity |].
    rewrite length_app, length_zip_with, length_zip_with, drop_0.
    rewrite !length_fmap, length_seq, length_classes. cbn [length]. lia.
Qed.

Lemma X3_accuracy_all_or_nothing_witness :
  accuracy 2 [0; 1] [0; 2] = ([], OutOfBounds)
  /\ length (log_of (accuracy 3 [0; 1] [0; 2])) = 4%nat.
Proof.
  split.
  - apply (proj1 (X3_accuracy_all_or_nothing 2 [0; 1] [0; 2] eq_refl)).
    right. left. vm_compute. discriminate.
  - apply (proj2 (X3_accuracy_all_or_nothing 3 [0; 1] [0; 2] eq_refl)).
    repeat constructor.
Defined.

(** X4: in a report whose test labels all lie below the class count, the
    total line counts all the predictions exactly when every prediction
    equals its label, and counts none exactly when no prediction does. *)
Theorem X4_total_accuracy_extremes (numClasses : size_t)
    (ps tl : list size_t) (m k : size_t) (q : quotient) :
  length ps = length tl ->
  N.of_nat (length ps) < 2 ^ 64 ->
  Forall (fun l => l < numClasses) tl ->
  Info (InfoTotal m k q) ∈ log_of (accuracy numClasses ps tl) ->
  k = N.of_nat (length ps)
  /\ q = fdiv m k
  /\ (m = k <-> ps = tl)
  /\ (m = 0 <-> Forall2 (fun p l => p <> l) ps tl).
Proof.
  intros Hlen Hn Hall Hin.
  rewrite (accuracy_in_bounds _ _ _ Hlen Hn Hall) in Hin.
  cbn [log_of fst] in Hin. apply elem_of_app in Hin as [Hin | Hin].
  - unfold class_lines in Hin. apply list_elem_of_fmap in Hin as (c & E & _).
    discriminate E.
  - apply list_elem_of_singleton in Hin. injection Hin as -> -> ->.
    split; [reflexivity |]. split; [reflexivity |].
    split; [now apply match_count_all | now apply match_count_none].
Qed.

Lemma X4_total_accuracy_extremes_witness :
  2 = N.of_nat (length [1; 0])
  /\ Quot (2 # 2) = fdiv 2 2
  /\ (2 = 2 <-> [1; 0] = [1; 0])
  /\ (2 = 0 <-> Forall2 (fun p l : N => p <> l) [1; 0] [1; 0]).
Proof.
  apply (X4_total_accuracy_extremes 2 [1; 0] [1; 0] 2 2 (Quot (2 # 2))).
  - reflexivity.
  - reflexivity.
  - repeat constructor.
  - vm_compute. right. right. left.
Defined.

(** X5: when the counting loop ends normally (equal lengths, fewer than
    2^64 points), both counter arrays have one entry per class, every test
    point is counted in exactly one entry of [labelSize], and no entry of
    [bingoLabels] exceeds the entry of [labelSize] beside it. *)
Theorem X5_counters_invariant (numClasses : size_t) (ps tl : list size_t)
    (bingoLabels labelSize : list size_t) :
  length ps = length tl ->
  N.of_nat (length ps) < 2 ^ 64 ->
  tally numClasses ps tl = Some (bingoLabels, labelSize) ->
  length bingoLabels = N.to_nat numClasses
  /\ length labelSize = N.to_nat numClasses
  /\ sumN labelSize = N.of_nat (length ps)
  /\ Forall2 (fun b s => b <= s) bingoLabels labelSize.
Proof.
  intros Hlen Hn Ht. rewrite (tally_eq_spec _ _ _ Hlen) in Ht.
  unfold tally_spec in Ht.
  destruct (forallb _ (zip ps tl)) eqn:Hb; [| discriminate].
  assert (Hz : length (zip ps tl) = length ps).
  { rewrite length_zip_with. lia. }
  assert (Hh : forall c, wrap64 (hit_count c (zip ps tl)) = hit_count c (zip ps tl)).
  { intros c. apply wrap64_small.
    pose proof (count_le_length
                  (fun x : N * N => (x.1 =? x.2) && (x.2 =? c)) (zip ps tl)).
    unfold hit_count. lia. }
  assert (Hl : forall c, wrap64 (label_count c (zip ps tl))
                         = label_count c (zip ps tl)).
  { intros c. apply wrap64_small.
    pose proof (count_le_length (fun x : N * N => x.2 =? c) (zip ps tl)).
    unfold label_count. lia. }
  injection Ht as <- <-.
  rewrite !length_fmap, length_classes.
  split; [reflexivity |]. split; [reflexivity |]. split.
  - rewrite (list_fmap_ext (fun c => wrap64 (label_count c (zip ps tl)))
               (fun c => label_count c (zip ps tl)) (classes numClasses))
      by (intros; apply Hl).
    rewrite (sum_label_count _ _ Hb). now rewrite Hz.
  - apply Forall2_fmap, Forall_Forall2_diag, Forall_forall.
    intros c _. rewrite Hh, Hl. apply hit_le_label.
Qed.

Lemma X5_counters_invariant_witness :
  length [1; 1] = N.to_nat 2
  /\ length [2; 1] = N.to_nat 2
  /\ sumN [2; 1] = N.of_nat (length [0; 1; 1])
  /\ Forall2 (fun b s : N => b <= s) [1; 1] [2; 1].
Proof.
  apply (X5_counters_invariant 2 [0; 1; 1] [0; 1; 0] [1; 1] [2; 1]);
    reflexivity.
Defined.

(** * Further properties of the run *)

(** ** The checks, in order *)

Lemma outcome_RequireParamValue {T B} name (v : T) cond msg (k : M B) :
  outcome (RequireParamValue name v cond true msg ;; k)
  = if cond v then outcome k else Fatal (FatalParam name msg).
Proof.
  unfold RequireParamValue. destruct (cond v); [| reflexivity].
  cbn [mbind M_bind mret M_ret]. now destruct k.
Qed.

Lemma outcome_RequireParamInSet {B} name v set msg (k : M B) :
  outcome (RequireParamInSet name v set true msg ;; k)
  = if bool_decide (v ∈ set) then outcome k else Fatal (FatalParam name msg).
Proof.
  unfold RequireParamInSet. destruct (bool_decide _); [| reflexivity].
  cbn [mbind M_bind mret M_ret]. now destruct k.
Qed.

Lemma outcome_RequireAtLeastOnePassed {B} passed w (k : M B) :
  outcome (RequireAtLeastOnePassed passed true w ;; k)
  = if existsb id passed then outcome k else Fatal FatalNonePassed.
Proof.
  unfold RequireAtLeastOnePassed. destruct (existsb id passed); [| reflexivity].
  cbn [mbind M_bind mret M_ret]. now destruct k.
Qed.

Lemma outcome_checked_true (m : M unit) : checked true m -> outcome m = Ok tt.
Proof. now intros (ws & _ & ->). Qed.

Lemma validate_outcome (p : Params) :
  outcome (validate p)
  = match first_failure p with Some f => Fatal f | None => Ok tt end.
Proof.
  unfold validate, first_failure.
  rewrite outcome_RequireAtLeastOnePassed. cbn [existsb id].
  rewrite orb_false_r.
  destruct (HasParam (training p) || HasParam (input_model p));
    cbn [negb]; [| reflexivity].
  rewrite outcome_seq_checked by apply checked_advice.
  rewrite !outcome_seq_checked by apply checked_ReportIgnoredParam.
  rewrite outcome_RequireParamValue.
  destruct (get_max_iterations p >=? 0)%Z; cbn [negb]; [| reflexivity].
  rewrite outcome_RequireParamValue.
  destruct (ge_zero (get_tolerance p)); cbn [negb]; [| reflexivity].
  rewrite outcome_RequireParamInSet.
  destruct (bool_decide (get_optimizer p ∈ _)); cbn [negb]; [| reflexivity].
  rewrite outcome_RequireParamValue.
  destruct (ge_zero (get_lambda p)); cbn [negb]; [| reflexivity].
  rewrite outcome_RequireParamValue.
  destruct (get_number_of_classes p >=? 0)%Z; cbn [negb]; [| reflexivity].
  rewrite outcome_RequireParamValue.
  destruct (ge_zero (get_delta p)); cbn [negb]; [| reflexivity].
  rewrite outcome_RequireParamValue.
  destruct (ge_zero (get_step_size p)); cbn [negb]; [| reflexivity].
  apply outcome_checked_true.
  repeat first [ apply checked_bind_true
               | apply checked_when_warn
               | apply checked_when_true ].
Qed.

Lemma first_failure_valid (p : Params) :
  first_failure p = None <-> valid p = true.
Proof.
  unfold first_failure, valid.
  destruct (HasParam (training p) || HasParam (input_model p)),
    (get_max_iterations p >=? 0)%Z, (ge_zero (get_tolerance p)),
    (bool_decide (get_optimizer p ∈ _)), (ge_zero (get_lambda p)),
    (get_number_of_classes p >=? 0)%Z, (ge_zero (get_delta p)),
    (ge_zero (get_step_size p)); cbn; split; congruence.
Qed.

(** ** The warnings *)

Lemma validate_valid (p : Params) :
  valid p = true -> validate p = (advice p, Ok tt).
Proof.
  intros Hv.
  apply valid_true in Hv as (Hp & Hm & Ht & Ho & Hl & Hn & Hd & Hs).
  unfold validate, advice, RequireAtLeastOnePassed, RequireParamValue,
    RequireParamInSet, ReportIgnoredParam.
  cbn [existsb id forallb fst snd].
  rewrite !orb_false_r, Hp, Hm, Ht, Hl, Hn, Hd, Hs.
  rewrite (bool_decide_eq_true_2 _ Ho).
  destruct (output_model p), (predictions p), (score p), (HasParam (test p)),
    (HasParam (test_labels p)), (get_optimizer p =? "psgd")%string,
    (HasParam (step_size p)), (shuffle p); reflexivity.
Qed.

(** ** The anatomy of a run *)

Section Anatomy.

Variable conv_to_size_t : double -> size_t.
Variable default_model : LinearSVM.
Variable Train :
  LinearSVM -> mat -> list size_t -> size_t -> Optimizer -> LinearSVM.
Variable Classify : LinearSVM -> mat -> list size_t.
Variable ClassifyScores : LinearSVM -> mat -> mat.
Variable HAS_OPENMP : bool.
Variable threadShareSize : nat -> size_t.

(** The four ways the training stage can go. *)
Lemma train_shape (p : Params) (m : LinearSVM) (d : mat) (ls : list size_t)
    (nc : size_t) :
  (training p = None
   /\ train Train HAS_OPENMP threadShareSize p m d ls nc = ([], Ok m))
  \/ (training p <> None
      /\ exists i opt,
           train Train HAS_OPENMP threadShareSize p m d ls nc
           = ([Info i; CallTrain d ls nc opt],
              Ok (Train (configured p m nc) d ls nc opt))
           /\ (opt = lbfgs_of p /\ get_optimizer p = "lbfgs"%string
               \/ opt = psgd_of threadShareSize p d
                  /\ get_optimizer p = "psgd"%string /\ HAS_OPENMP = true))
  \/ (training p <> None
      /\ train Train HAS_OPENMP threadShareSize p m d ls nc
         = ([], Fatal FatalOpenMP)
      /\ HAS_OPENMP = false /\ get_optimizer p <> "lbfgs"%string)
  \/ (training p <> None
      /\ train Train HAS_OPENMP threadShareSize p m d ls nc
         = ([], Ok (configured p m nc))
      /\ get_optimizer p <> "lbfgs"%string
      /\ get_optimizer p <> "psgd"%string).
Proof.
  rewrite train_spec.
  destruct (training p) as [tr |]; cbn [HasParam]; [| now left].
  right.
  destruct (String.eqb_spec (get_optimizer p) "lbfgs") as [E1 | E1].
  { left. split; [discriminate |]. eexists _, _. split; [reflexivity |]. auto. }
  destruct HAS_OPENMP eqn:Hmp.
  - destruct (String.eqb_spec (get_optimizer p) "psgd") as [E2 | E2].
    + left. split; [discriminate |]. eexists _, _. split; [reflexivity |].
      auto.
    + right. right. repeat split; try discriminate; assumption.
  - right. left. repeat split; try discriminate; assumption.
Qed.

Let main :=
  mlpackMain conv_to_size_t default_model Train Classify ClassifyScores
    HAS_OPENMP threadShareSize.
Let body :=
  run conv_to_size_t default_model Train Classify ClassifyScores HAS_OPENMP
    threadShareSize.
Let load := load_labels conv_to_size_t.
Let training_stage := train Train HAS_OPENMP threadShareSize.
Let test_stage := classify_test Classify ClassifyScores.

Lemma test_stage_none (p : Params) (m : LinearSVM) (nc : size_t) :
  test p = None -> test_stage p m nc = ([], Ok (None, None)).
Proof. intros H. unfold test_stage, classify_test. now rewrite H. Qed.

(** What the test stage writes, and what it hands back. *)
Lemma test_stage_events (p : Params) (m : LinearSVM) (nc : size_t) (e : event) :
  e ∈ log_of (test_stage p m nc) ->
  is_warn e = false /\ is_train e = false
  /\ exists t, test p = Some t
       /\ N.of_nat (n_rows t) = uword_pred (n_rows (Parameters m))
       /\ (is_classify e = true ->
           e = CallClassify t \/ e = CallClassifyScore t /\ score p = true)
       /\ (is_accuracy e = true ->
           exists tl, test_labels p = Some tl /\ n_cols t = length tl
             /\ e ∈ log_of (accuracy nc (Classify m t) tl)).
Proof.
  intros Hin. destruct (test p) as [t |] eqn:Ht.
  2: { rewrite test_stage_none in Hin by assumption. inversion Hin. }
  unfold test_stage in Hin.
  rewrite (classify_test_spec Classify ClassifyScores p m nc t Ht) in Hin.
  destruct (N.eqb_spec (N.of_nat (n_rows t))
              (uword_pred (n_rows (Parameters m)))) as [Hd | Hd];
    cbn [negb] in Hin; [| inversion Hin].
  assert (Hs : forall e, e ∈ (if score p
                               then [Info InfoScore; CallClassifyScore t]
                               else []) ->
               is_warn e = false /\ is_train e = false
               /\ is_accuracy e = false
               /\ (is_classify e = true ->
                   e = CallClassifyScore t /\ score p = true)).
  { intros e0 H0. destruct (score p); [| inversion H0].
    apply elem_of_cons in H0 as [-> | H0]; [repeat split; discriminate |].
    apply list_elem_of_singleton in H0 as ->. repeat split. }
  assert (Hp : forall e, e ∈ (if predictions p then [Info InfoPredicting]
                               else []) ->
               e = Info InfoPredicting).
  { intros e0 H0. destruct (predictions p); [| inversion H0].
    now apply list_elem_of_singleton in H0. }
  assert (Hgoal : forall tlo,
             e ∈ (if score p then [Info InfoScore; CallClassifyScore t]
                  else []) \/ e = CallClassify t
             \/ (exists tl, tlo = Some tl /\ n_cols t = length tl
                   /\ e ∈ log_of (accuracy nc (Classify m t) tl))
             \/ e = Info InfoPredicting ->
             test_labels p = tlo ->
             is_warn e = false /\ is_train e = false
             /\ exists t0, Some t = Some t0
                  /\ N.of_nat (n_rows t0) = uword_pred (n_rows (Parameters m))
                  /\ (is_classify e = true ->
                      e = CallClassify t0
                      \/ e = CallClassifyScore t0 /\ score p = true)
                  /\ (is_accuracy e = true ->
                      exists tl, tlo = Some tl /\ n_cols t0 = length tl
                        /\ e ∈ log_of (accuracy nc (Classify m t0) tl))).
  { intros tlo [H | [-> | [(tl & Htl & Hc & H) | ->]]] _.
    - destruct (Hs e H) as (H1 & H2 & H3 & H4).
      split; [exact H1 |]. split; [exact H2 |].
      exists t. split; [reflexivity |]. split; [exact Hd |]. split.
      + intros Hc. right. now apply H4.
      + intros Ha. congruence.
    - split; [reflexivity |]. split; [reflexivity |].
      exists t. split; [reflexivity |]. split; [exact Hd |].
      split; [now left | discriminate].
    - destruct (accuracy_log nc (Classify m t) tl) as [Hl _].
      rewrite Forall_forall in Hl. specialize (Hl e H).
      assert (He : is_warn e = false /\ is_train e = false
                   /\ is_classify e = false).
      { destruct e as [| [] | | |]; cbn in Hl; try contradiction;
          repeat split. }
      destruct He as (H1 & H2 & H3).
      split; [exact H1 |]. split; [exact H2 |].
      exists t. split; [reflexivity |]. split; [exact Hd |]. split.
      + intros Hc'. congruence.
      + intros _. eauto.
    - split; [reflexivity |]. split; [reflexivity |].
      exists t. split; [reflexivity |]. split; [exact Hd |].
      split; discriminate. }
  destruct (test_labels p) as [tl |] eqn:Htl.
  - destruct (Nat.eqb_spec (n_cols t) (length tl)) as [Hc | Hc];
      cbn [negb] in Hin.
    + apply (Hgoal (Some tl)); [| reflexivity].
      destruct (accuracy nc (Classify m t) tl) as [alog [[] | f |]] eqn:Ea;
        cbn [log_of fst] in Hin;
        repeat (apply elem_of_app in Hin as [Hin | Hin]); auto;
        try (apply list_elem_of_singleton in Hin; auto);
        try (right; right; left; exists tl; rewrite Ea; now auto);
        try (right; right; right; now apply Hp).
    + apply (Hgoal (Some tl)); [| reflexivity]. cbn [log_of fst] in Hin.
      apply elem_of_app in Hin as [Hin | Hin]; auto.
      apply list_elem_of_singleton in Hin. auto.
  - apply (Hgoal None); [| reflexivity]. cbn [log_of fst] in Hin.
    repeat (apply elem_of_app in Hin as [Hin | Hin]); auto;
      try (apply list_elem_of_singleton in Hin; auto);
      try (right; right; right; now apply Hp).
Qed.

Lemma test_stage_result (p : Params) (m : LinearSVM) (nc : size_t)
    (ps : option (list size_t) * option mat) :
  outcome (test_stage p m nc) = Ok ps ->
  match test p with
  | None => ps = (None, None)
  | Some t =>
      ps = (if predictions p then Some (Classify m t) else None,
            if score p then Some (ClassifyScores m t) else None)
      /\ N.of_nat (n_rows t) = uword_pred (n_rows (Parameters m))
      /\ CallClassify t ∈ log_of (test_stage p m nc)
  end.
Proof.
  intros Ho. destruct (test p) as [t |] eqn:Ht.
  2: { rewrite test_stage_none in Ho by assumption. now injection Ho. }
  unfold test_stage in *.
  rewrite (classify_test_spec Classify ClassifyScores p m nc t Ht) in Ho |- *.
  destruct (N.eqb_spec (N.of_nat (n_rows t))
              (uword_pred (n_rows (Parameters m)))) as [Hd | Hd];
    cbn [negb] in Ho |- *; [| discriminate].
  destruct (test_labels p) as [tl |].
  - destruct (negb (n_cols t =? length tl)%nat); [discriminate |].
    destruct (accuracy nc (Classify m t) tl) as [alog [[] | f |]];
      try discriminate.
    cbn [outcome snd] in Ho. injection Ho as <-.
    repeat split; trivial. cbn [log_of fst].
    apply elem_of_app. right. apply elem_of_app. left. left.
  - cbn [outcome snd] in Ho. injection Ho as <-.
    repeat split; trivial. cbn [log_of fst].
    apply elem_of_app. right. apply elem_of_app. left. left.
Qed.

(** A run whose checks pass, whose labels load and whose training ends
    normally goes on to the test stage. *)
Lemma main_reaches (p : Params) d ls tlog (m : LinearSVM) :
  valid p = true ->
  load p (default empty_mat (training p)) = ([], Ok (d, ls)) ->
  training_stage p (default default_model (input_model p)) d ls
    (derived_numClasses p ls) = (tlog, Ok m) ->
  main p
  = (advice p ++ tlog ++ log_of (test_stage p m (derived_numClasses p ls)),
     hand_back m (outcome (test_stage p m (derived_numClasses p ls)))).
Proof.
  intros Hv Hl Ht. unfold main, mlpackMain.
  rewrite (bind_Ok (validate p) _ (advice p) tt (validate_valid p Hv)).
  rewrite (run_trained conv_to_size_t default_model Train Classify
             ClassifyScores HAS_OPENMP threadShareSize p d ls tlog m Hl Ht).
  reflexivity.
Qed.

(** The stages a run went through when it ends normally. *)
Lemma main_ok (p : Params) (out : Outputs) :
  outcome (main p) = Ok out ->
  valid p = true
  /\ exists d ls tlog,
       load p (default empty_mat (training p)) = ([], Ok (d, ls))
       /\ training_stage p (default default_model (input_model p)) d ls
            (derived_numClasses p ls) = (tlog, Ok (out_model out))
       /\ outcome (test_stage p (out_model out) (derived_numClasses p ls))
          = Ok (out_predictions out, out_score out)
       /\ log_of (main p)
          = advice p ++ tlog
            ++ log_of (test_stage p (out_model out) (derived_numClasses p ls)).
Proof.
  intros Ho. destruct (valid p) eqn:Hv.
  2: { destruct (mlpackMain_cases conv_to_size_t default_model Train Classify
                   ClassifyScores HAS_OPENMP threadShareSize p)
         as (ws & _ & H).
       rewrite Hv in H. destruct H as (f & _ & E). fold main in E.
       rewrite E in Ho. discriminate. }
  split; [reflexivity |].
  destruct (load_cases conv_to_size_t p (default empty_mat (training p)))
    as [[f Hl] | (d & ls & Hl)].
  { unfold main, mlpackMain in Ho.
    rewrite (bind_Ok (validate p) _ (advice p) tt (validate_valid p Hv)) in Ho.
    rewrite (run_load_fatal conv_to_size_t default_model Train Classify
               ClassifyScores HAS_OPENMP threadShareSize p f Hl) in Ho.
    discriminate. }
  destruct (train_cases Train HAS_OPENMP threadShareSize p
              (default default_model (input_model p)) d ls
              (derived_numClasses p ls))
    as [(tlog & f & Ht) | (tlog & m & Ht)].
  { unfold main, mlpackMain in Ho.
    rewrite (bind_Ok (validate p) _ (advice p) tt (validate_valid p Hv)) in Ho.
    rewrite (run_train_fatal conv_to_size_t default_model Train Classify
               ClassifyScores HAS_OPENMP threadShareSize p d ls tlog f Hl Ht)
      in Ho.
    discriminate. }
  rewrite (main_reaches p d ls tlog m Hv Hl Ht) in Ho |- *.
  cbn [outcome log_of fst snd] in Ho |- *.
  destruct (outcome (test_stage p m (derived_numClasses p ls)))
    as [ps | f |] eqn:Eo; try discriminate.
  cbn [hand_back] in Ho. injection Ho as <-. cbn [out_model out_predictions
                                                  out_score].
  exists d, ls, tlog. rewrite Eo. destruct ps. auto.
Qed.

(** The log of any run: the warnings of the checks, then at most one
    training call behind its notice, then what the test stage writes. *)
Lemma main_anatomy (p : Params) :
  exists tlog clog,
    log_of (main p) = log_of (validate p) ++ tlog ++ clog
    /\ (tlog = [] \/ exists i d ls nc opt,
                       tlog = [Info i; CallTrain d ls nc opt]
                       /\ is_accuracy (Info i) = false)
    /\ (training p = None -> tlog = [])
    /\ (forall e, e ∈ clog -> exists m nc, e ∈ log_of (test_stage p m nc)).
Proof.
  destruct (mlpackMain_cases conv_to_size_t default_model Train Classify
              ClassifyScores HAS_OPENMP threadShareSize p) as (ws & _ & H).
  fold main in H. destruct (valid p) eqn:Hv.
  2: { destruct H as (f & Hval & E). exists [], []. rewrite E, Hval.
       cbn [log_of fst]. rewrite !app_nil_r.
       repeat split; auto. intros e He. inversion He. }
  destruct H as [Hval E]. rewrite E, Hval. cbn [log_of fst]. clear E.
  destruct (load_cases conv_to_size_t p (default empty_mat (training p)))
    as [[f Hl] | (d & ls & Hl)].
  { rewrite (run_load_fatal conv_to_size_t default_model Train Classify
               ClassifyScores HAS_OPENMP threadShareSize p f Hl).
    exists [], []. repeat split; auto. intros e He. inversion He. }
  destruct (train_shape p (default default_model (input_model p)) d ls
              (derived_numClasses p ls))
    as [[Hn Ht] | [(Hn & i & opt & Ht & _) | [(Hn & Ht & _) | (Hn & Ht & _)]]].
  - rewrite (run_trained conv_to_size_t default_model Train Classify
               ClassifyScores HAS_OPENMP threadShareSize p d ls _ _ Hl Ht).
    eexists [], _. cbn [log_of fst app]. repeat split; auto.
    intros e He. eauto.
  - rewrite (run_trained conv_to_size_t default_model Train Classify
               ClassifyScores HAS_OPENMP threadShareSize p d ls _ _ Hl Ht).
    eexists _, _. cbn [log_of fst]. split; [reflexivity |].
    split.
    { right. exists i, d, ls, (derived_numClasses p ls), opt.
      split; [reflexivity |].
      pose proof (train_log Train HAS_OPENMP threadShareSize p
                    (default default_model (input_model p)) d ls
                    (derived_numClasses p ls)) as Hlog.
      rewrite Ht in Hlog. cbn [log_of fst] in Hlog.
      apply Forall_cons in Hlog as [(_ & Ha & _) _]. exact Ha. }
    split; [intros; contradiction |].
    intros e He. eauto.
  - rewrite (run_train_fatal conv_to_size_t default_model Train Classify
               ClassifyScores HAS_OPENMP threadShareSize p d ls _ _ Hl Ht).
    exists [], []. cbn [log_of fst]. repeat split; auto.
    intros e He. inversion He.
  - rewrite (run_trained conv_to_size_t default_model Train Classify
               ClassifyScores HAS_OPENMP threadShareSize p d ls _ _ Hl Ht).
    eexists [], _. cbn [log_of fst app]. repeat split; auto.
    intros e He. eauto.
Qed.

Lemma validate_log_warn (p : Params) :
  Forall (fun e => is_warn e) (log_of (validate p)).
Proof.
  destruct (validate_checked p) as (ws & W & H). destruct (valid p).
  - now rewrite H.
  - destruct H as [f ->]. exact W.
Qed.

Lemma main_train_fatal (p : Params) d ls tlog (f : fatal) :
  valid p = true ->
  load p (default empty_mat (training p)) = ([], Ok (d, ls)) ->
  training_stage p (default default_model (input_model p)) d ls
    (derived_numClasses p ls) = (tlog, Fatal f) ->
  main p = (advice p ++ tlog, Fatal f).
Proof.
  intros Hv Hl Ht. unfold main, mlpackMain.
  rewrite (bind_Ok (validate p) _ (advice p) tt (validate_valid p Hv)).
  rewrite (run_train_fatal conv_to_size_t default_model Train Classify
             ClassifyScores HAS_OPENMP threadShareSize p d ls tlog f Hl Ht).
  reflexivity.
Qed.

(** A warning of a run is a warning of the checks. *)
Lemma warn_in_main (p : Params) (w : warning) :
  Warn w ∈ log_of (main p) <-> Warn w ∈ log_of (validate p).
Proof.
  destruct (main_anatomy p) as (tlog & clog & E & Ht & _ & Hc). rewrite E.
  rewrite !elem_of_app. split; [| now left].
  intros [H | [H | H]]; [exact H | |].
  - destruct Ht as [-> | (i & d & ls & nc & opt & -> & _)]; [inversion H |].
    apply elem_of_cons in H as [H | H]; [discriminate |].
    apply list_elem_of_singleton in H. discriminate.
  - destruct (Hc _ H) as (m & nc & H').
    apply test_stage_events in H' as [H' _]. discriminate.
Qed.

Lemma elem_if_singleton (b : bool) (e e' : event) :
  e ∈ (if b then [e'] else []) <-> b = true /\ e = e'.
Proof.
  destruct b.
  - rewrite list_elem_of_singleton. tauto.
  - split; [intros H; inversion H | intros [? _]; discriminate].
Qed.

Lemma elem_if_list (b : bool) (e : event) (l : list event) :
  e ∈ (if b then l else []) <-> b = true /\ e ∈ l.
Proof.
  destruct b; [tauto |].
  split; [intros H; inversion H | intros [? _]; discriminate].
Qed.

(** ** Properties of the checks *)

(** X6: a run that is given neither a training set nor a model stops at
    the first check, before it writes or does anything else. *)
Theorem X6_nothing_to_run_on (p : Params) :
  training p = None -> input_model p = None ->
  main p = ([], Fatal FatalNonePassed).
Proof.
  intros Ht Hm. unfold main, mlpackMain, validate, RequireAtLeastOnePassed.
  rewrite Ht, Hm. reflexivity.
Qed.

(** X7: the checks are made in the order of the source (a training set
    or model, [max_iterations], [tolerance], [optimizer], [lambda],
    [number_of_classes], [delta], [step_size]) and the run ends with the
    message of the first one that fails, having written warnings only; a
    run that fails none of them writes its warnings and goes on. *)
Theorem X7_first_failing_check (p : Params) :
  match first_failure p with
  | Some f =>
      outcome (main p) = Fatal f
      /\ Forall (fun e => is_warn e) (log_of (main p))
  | None =>
      main p = (advice p ++ log_of (body p), outcome (body p))
  end.
Proof.
  pose proof (validate_outcome p) as Ho.
  pose proof (validate_log_warn p) as Hw.
  destruct (first_failure p) as [f |] eqn:Ef.
  - unfold main, mlpackMain. destruct (validate p) as [ws r].
    cbn [outcome log_of fst snd] in Ho, Hw. subst r.
    rewrite (bind_Fatal (ws, Fatal f) _ ws f eq_refl). now split.
  - apply first_failure_valid in Ef. unfold main, mlpackMain.
    now rewrite (bind_Ok (validate p) _ (advice p) tt (validate_valid p Ef)).
Qed.

(** X8: in a run whose parameters pass the checks, the warning that
    [step_size] is ignored is written exactly when [step_size] is passed
    with an optimizer other than 'psgd', and likewise for [shuffle]. *)
Theorem X8_ignored_optimizer_options (p : Params) :
  valid p = true ->
  (Warn (WarnNotPsgd "step_size") ∈ log_of (main p)
   <-> step_size p <> None /\ get_optimizer p <> "psgd"%string)
  /\ (Warn (WarnNotPsgd "shuffle") ∈ log_of (main p)
      <-> shuffle p = true /\ get_optimizer p <> "psgd"%string).
Proof.
  intros Hv.
  assert (H : forall w, Warn w ∈ log_of (main p) <-> Warn w ∈ advice p).
  { intros w. rewrite warn_in_main, (validate_valid p Hv). reflexivity. }
  rewrite !H. clear H. unfold advice.
  rewrite !elem_of_app, !elem_if_singleton, !elem_if_list, !elem_of_app,
    !elem_if_singleton.
  split.
  - split.
    + intros [[_ E] | [[_ E] | [[_ E] | [[_ E] | [Hb [[Hs _] | [_ E]]]]]]];
        try discriminate E.
      destruct (String.eqb_spec (get_optimizer p) "psgd");
        [cbn in Hb; discriminate Hb |].
      destruct (step_size p); [auto | discriminate Hs].
    + intros (Hs & Ho). right. right. right. right.
      destruct (String.eqb_spec (get_optimizer p) "psgd"); [contradiction |].
      split; [reflexivity |]. left.
      destruct (step_size p); [split; reflexivity | contradiction].
  - split.
    + intros [[_ E] | [[_ E] | [[_ E] | [[_ E] | [Hb [[_ E] | [Hs _]]]]]]];
        try discriminate E.
      destruct (String.eqb_spec (get_optimizer p) "psgd");
        [cbn in Hb; discriminate Hb |]. auto.
    + intros (-> & Ho). right. right. right. right.
      destruct (String.eqb_spec (get_optimizer p) "psgd"); [contradiction |].
      split; [reflexivity |]. right. split; reflexivity.
Qed.

(** X9: in a build without OpenMP, a training run that asks for the
    parallel SGD optimizer passes the checks, loads its labels, and then
    stops before training, on the missing OpenMP. *)
Theorem X9_psgd_without_openmp (p : Params) (d : mat) (ls : list size_t) :
  HAS_OPENMP = false ->
  valid p = true ->
  training p <> None ->
  get_optimizer p = "psgd"%string ->
  load p (default empty_mat (training p)) = ([], Ok (d, ls)) ->
  main p = (advice p, Fatal FatalOpenMP).
Proof.
  intros Hmp Hv Htr Ho Hl.
  destruct (train_shape p (default default_model (input_model p)) d ls
              (derived_numClasses p ls))
    as [[Hn _] | [(_ & i & opt & _ & Hc)
                 | [(_ & Ht & _) | (_ & _ & _ & E)]]].
  - contradiction.
  - destruct Hc as [[_ E] | (_ & _ & E)]; [| congruence].
    rewrite Ho in E. discriminate.
  - rewrite (main_train_fatal p d ls [] FatalOpenMP Hv Hl Ht).
    now rewrite app_nil_r.
  - contradiction.
Qed.

(** ** Properties of the training stage *)

Lemma advice_warn (p : Params) (e : event) :
  valid p = true -> e ∈ advice p -> is_warn e = true.
Proof.
  intros Hv Hin. pose proof (validate_log_warn p) as W.
  rewrite (validate_valid p Hv) in W. cbn [log_of fst] in W.
  rewrite Forall_forall in W. specialize (W e Hin).
  now destruct (is_warn e).
Qed.

(** The one training call of a run, and the stage that made it. *)
Lemma train_event (p : Params) d ls nc opt :
  CallTrain d ls nc opt ∈ log_of (main p) ->
  valid p = true
  /\ training p <> None
  /\ load p (default empty_mat (training p)) = ([], Ok (d, ls))
  /\ nc = derived_numClasses p ls
  /\ (exists i,
        training_stage p (default default_model (input_model p)) d ls nc
        = ([Info i; CallTrain d ls nc opt],
           Ok (Train (configured p (default default_model (input_model p)) nc)
                 d ls nc opt)))
  /\ (opt = lbfgs_of p /\ get_optimizer p = "lbfgs"%string
      \/ opt = psgd_of threadShareSize p d
         /\ get_optimizer p = "psgd"%string /\ HAS_OPENMP = true).
Proof.
  intros Hin.
  destruct (main_train_events conv_to_size_t default_model Train Classify
              ClassifyScores HAS_OPENMP threadShareSize p d ls nc opt Hin)
    as (Hv & Hl & -> & _).
  assert (Hno : forall tlog m,
             CallTrain d ls (derived_numClasses p ls) opt
             ∈ advice p ++ tlog
               ++ log_of (test_stage p m (derived_numClasses p ls)) ->
             CallTrain d ls (derived_numClasses p ls) opt ∈ tlog).
  { intros tlog m H. apply elem_of_app in H as [H | H].
    - apply (advice_warn p _ Hv) in H. discriminate.
    - apply elem_of_app in H as [H | H]; [exact H |].
      apply test_stage_events in H as (_ & H & _). discriminate. }
  destruct (train_shape p (default default_model (input_model p)) d ls
              (derived_numClasses p ls))
    as [[Hn Ht] | [(Hn & i & opt' & Ht & Hc)
                  | [(Hn & Ht & _) | (Hn & Ht & _)]]].
  - rewrite (main_reaches p d ls _ _ Hv Hl Ht) in Hin.
    apply Hno in Hin. inversion Hin.
  - rewrite (main_reaches p d ls _ _ Hv Hl Ht) in Hin.
    apply Hno in Hin. apply elem_of_cons in Hin as [Hin | Hin];
      [discriminate |].
    apply list_elem_of_singleton in Hin. injection Hin as ->.
    repeat split; trivial. now exists i.
  - rewrite (main_train_fatal p d ls _ _ Hv Hl Ht) in Hin.
    cbn [log_of fst] in Hin. rewrite app_nil_r in Hin.
    apply (advice_warn p _ Hv) in Hin. discriminate.
  - rewrite (main_reaches p d ls _ _ Hv Hl Ht) in Hin.
    apply Hno in Hin. inversion Hin.
Qed.

(** X10: whatever is trained is trained with the optimizer that was asked
    for, set up from parameters that passed their checks: the iteration
    limit is the [max_iterations] given (never a negative number turned
    into a huge unsigned one), L-BFGS takes it and [tolerance], and parallel
    SGD, possible only with OpenMP, takes in addition the thread share of
    the training points, the [step_size], and shuffles exactly when the
    [shuffle] flag is not passed. *)
Theorem X10_optimizer_settings (p : Params) d ls nc opt :
  CallTrain d ls nc opt ∈ log_of (main p) ->
  (get_max_iterations p < 2 ^ 31)%Z ->
  (0 <= get_max_iterations p)%Z
  /\ ge_zero (get_tolerance p) = true
  /\ (get_optimizer p = "lbfgs"%string
      /\ opt = L_BFGS (Z.to_N (get_max_iterations p)) (get_tolerance p)
      \/ get_optimizer p = "psgd"%string /\ HAS_OPENMP = true
         /\ ge_zero (get_step_size p) = true
         /\ opt = ParallelSGD (Z.to_N (get_max_iterations p))
                    (threadShareSize (n_cols d)) (get_tolerance p)
                    (negb (shuffle p)) (get_step_size p)).
Proof.
  intros Hin Hint.
  apply train_event in Hin as (Hv & _ & _ & _ & _ & Hc).
  apply valid_true in Hv as (_ & Hm & Ht & _ & _ & _ & _ & Hs).
  assert (H0 : (0 <= get_max_iterations p)%Z) by lia.
  assert (Hcast : size_t_of_int (get_max_iterations p)
                  = Z.to_N (get_max_iterations p)).
  { apply size_t_of_int_pos. lia. }
  split; [exact H0 |]. split; [exact Ht |].
  destruct Hc as [[-> Ho] | (-> & Ho & Hmp)].
  - left. split; [exact Ho |]. unfold lbfgs_of. now rewrite Hcast.
  - right. repeat split; trivial. unfold psgd_of. now rewrite Hcast.
Qed.

(** X11: with a labels vector passed beside the training matrix, whatever
    is trained is trained on the whole matrix, no row removed, with the
    labels as passed, one for each column. *)
Theorem X11_separate_labels_kept (p : Params) (tr : mat) (ls : list size_t)
    d ls' nc opt :
  training p = Some tr -> labels p = Some ls ->
  CallTrain d ls' nc opt ∈ log_of (main p) ->
  d = tr /\ ls' = ls /\ n_cols tr = length ls.
Proof.
  intros Htr Hls Hin.
  apply train_event in Hin as (_ & _ & Hl & _).
  unfold load in Hl. rewrite load_labels_spec, Htr, Hls in Hl.
  cbn [default from_option id] in Hl.
  destruct (Nat.eqb_spec (n_cols tr) (length ls)) as [E | E];
    [| discriminate].
  injection Hl as <- <-. auto.
Qed.

(** X12: without a training set the [labels] parameter is never read: two
    runs that differ in it alone do the same and end the same. *)
Theorem X12_labels_unread_without_training (p p' : Params) :
  training p = None -> same_but_labels p p' -> main p = main p'.
Proof.
  intros Ht H. destruct p, p'. unfold same_but_labels in H.
  cbn in Ht, H. destruct H as (? & ? & ? & ? & ? & ? & ? & ? & ? & ? & ? & ?
                               & ? & ? & ? & ?). subst.
  reflexivity.
Qed.

(** X13: a run without a training set never trains, and the model it
    hands back at its end is the model it was given, untouched. *)
Theorem X13_model_only_keeps_model (p : Params) (m : LinearSVM) :
  training p = None -> input_model p = Some m ->
  Forall (fun e => is_train e = false) (log_of (main p))
  /\ (forall out, outcome (main p) = Ok out -> out_model out = m).
Proof.
  intros Htr Hm. split.
  - apply Forall_forall. intros e He.
    destruct e; try reflexivity.
    apply train_event in He as (_ & Hn & _). contradiction.
  - intros out Ho. apply main_ok in Ho as (_ & d & ls & tlog & _ & Ht & _).
    unfold training_stage in Ht. rewrite train_spec, Htr, Hm in Ht.
    cbn [HasParam default from_option id] in Ht. now injection Ht.
Qed.

(** ** Properties of the test stage and of the outputs *)

Lemma train_calls_warn (ws : list event) :
  Forall (fun e => is_warn e) ws -> train_calls ws = 0%nat.
Proof.
  unfold train_calls. induction 1 as [| e ws He _ IH]; [reflexivity |].
  rewrite filter_cons_False; [exact IH |].
  destruct e; cbn in He |- *; tauto.
Qed.

(** Where an event of a run comes from. *)
Lemma main_event (p : Params) (e : event) :
  e ∈ log_of (main p) ->
  is_warn e = true
  \/ is_train e = true
  \/ (is_classify e = false /\ is_accuracy e = false)
  \/ exists m nc, e ∈ log_of (test_stage p m nc).
Proof.
  intros Hin. destruct (main_anatomy p) as (tlog & clog & E & Ht & _ & Hc).
  rewrite E in Hin. apply elem_of_app in Hin as [Hin | Hin].
  { left. pose proof (validate_log_warn p) as W.
    rewrite Forall_forall in W. specialize (W e Hin).
    now destruct (is_warn e). }
  apply elem_of_app in Hin as [Hin | Hin]; [| right; right; right; auto].
  destruct Ht as [-> | (i & d & ls & nc & opt & -> & Hi)]; [inversion Hin |].
  apply elem_of_cons in Hin as [-> | Hin].
  - right. right. left. split; [reflexivity | exact Hi].
  - apply list_elem_of_singleton in Hin as ->. right. now left.
Qed.

(** X14: what a run hands back at its end goes with the model it hands
    back: without a test set, no predictions and no scores, and nothing was
    classified; with one, it has the dimensionality that model expects, it
    was classified, and the predictions and scores handed back (when asked
    for) are those of that model on it. *)
Theorem X14_outputs_follow_saved_model (p : Params) (out : Outputs) :
  outcome (main p) = Ok out ->
  match test p with
  | None =>
      out_predictions out = None /\ out_score out = None
      /\ Forall (fun e => is_classify e = false /\ is_accuracy e = false)
           (log_of (main p))
  | Some t =>
      out_predictions out
      = (if predictions p then Some (Classify (out_model out) t) else None)
      /\ out_score out
         = (if score p then Some (ClassifyScores (out_model out) t) else None)
      /\ N.of_nat (n_rows t)
         = uword_pred (n_rows (Parameters (out_model out)))
      /\ CallClassify t ∈ log_of (main p)
  end.
Proof.
  intros Ho.
  pose proof (main_ok p out Ho) as (Hv & d & ls & tlog & Hl & Ht & Hr & E).
  apply test_stage_result in Hr.
  destruct (test p) as [t |] eqn:Htest.
  - destruct Hr as (Hr & Hd & Hc). injection Hr as -> ->.
    repeat split; trivial. rewrite E.
    apply elem_of_app. right. apply elem_of_app. now right.
  - injection Hr as -> ->. split; [reflexivity |]. split; [reflexivity |].
    apply Forall_forall. intros e He.
    destruct (main_event p e He) as [H | [H | [H | (m & nc & H)]]].
    + destruct e; try discriminate H. split; reflexivity.
    + destruct e; try discriminate H. split; reflexivity.
    + exact H.
    + rewrite test_stage_none in H by assumption. inversion H.
Qed.

(** X15: a run with a training set that ends normally has made a
    training call, and hands back the result of that call on a model set up
    with the [lambda] and [delta] given, an intercept unless [no_intercept]
    is passed, the derived class count, and the parameters of the input
    model if there is one. *)
Theorem X15_saved_model_is_trained (p : Params) (out : Outputs) :
  training p <> None ->
  outcome (main p) = Ok out ->
  exists d ls opt,
    CallTrain d ls (derived_numClasses p ls) opt ∈ log_of (main p)
    /\ out_model out
       = Train {| Lambda := get_lambda p;
                  Delta := get_delta p;
                  FitIntercept := negb (no_intercept p);
                  NumClasses := derived_numClasses p ls;
                  Parameters :=
                    Parameters (default default_model (input_model p)) |}
           d ls (derived_numClasses p ls) opt.
Proof.
  intros Htr Ho.
  pose proof (main_ok p out Ho) as (Hv & d & ls & tlog & Hl & Ht & _ & E).
  unfold training_stage in Ht.
  destruct (train_shape p (default default_model (input_model p)) d ls
              (derived_numClasses p ls))
    as [[Hn _] | [(_ & i & opt & Hs & _)
                 | [(_ & Hs & _) | (_ & _ & H1 & H2)]]].
  - contradiction.
  - rewrite Hs in Ht. injection Ht as <- <-.
    exists d, ls, opt. split; [| reflexivity].
    rewrite E. apply elem_of_app. right. apply elem_of_app. left.
    right. left.
  - rewrite Hs in Ht. discriminate.
  - apply valid_true in Hv as (_ & _ & _ & Hin & _).
    apply elem_of_cons in Hin as [Hin | Hin]; [contradiction |].
    apply elem_of_cons in Hin as [Hin | Hin]; [contradiction |].
    inversion Hin.
Qed.

(** X16: the log of any run splits in two: a first part with at most one
    training call and nothing of the test stage (no classification, no
    accuracy line), and a second part without training call; so training,
    if any, is over before the test set is classified. *)
Theorem X16_train_before_test (p : Params) :
  exists before after,
    log_of (main p) = before ++ after
    /\ (train_calls before <= 1)%nat
    /\ Forall (fun e => is_classify e = false /\ is_accuracy e = false) before
    /\ Forall (fun e => is_train e = false) after.
Proof.
  destruct (main_anatomy p) as (tlog & clog & E & Ht & _ & Hc).
  exists (log_of (validate p) ++ tlog), clog.
  pose proof (validate_log_warn p) as W.
  split; [now rewrite <- app_assoc |]. split; [| split].
  - unfold train_calls. rewrite filter_app, length_app.
    fold (train_calls (log_of (validate p))).
    rewrite (train_calls_warn _ W).
    destruct Ht as [-> | (i & d & ls & nc & opt & -> & _)]; [cbn; lia |].
    rewrite filter_cons_False by (cbn; tauto).
    rewrite filter_cons_True by exact I. cbn. lia.
  - apply Forall_app. split.
    + eapply Forall_impl; [exact W |]. now intros [].
    + destruct Ht as [-> | (i & d & ls & nc & opt & -> & Hi)];
        [constructor |].
      repeat constructor. exact Hi.
  - apply Forall_forall. intros e He. destruct (Hc e He) as (m & nc & H).
    now apply test_stage_events in H as (_ & H & _).
Qed.

(** X17: a run that reaches the test stage with a test set of the right
    dimensionality, one test label per test point, one prediction per test
    point, and every test label below the class count of the run (derived
    from the training labels, or passed as [number_of_classes]) reports the
    accuracy without leaving the counters and ends normally: the log holds
    the line of every class and the total line, and the model and the
    outputs asked for are handed back. *)
Theorem X17_safe_accuracy_run (p : Params) (d t : mat)
    (ls tl : list size_t) (tlog : list event) (m : LinearSVM) :
  valid p = true ->
  load p (default empty_mat (training p)) = ([], Ok (d, ls)) ->
  training_stage p (default default_model (input_model p)) d ls
    (derived_numClasses p ls) = (tlog, Ok m) ->
  test p = Some t ->
  N.of_nat (n_rows t) = uword_pred (n_rows (Parameters m)) ->
  test_labels p = Some tl ->
  n_cols t = length tl ->
  length (Classify m t) = n_cols t ->
  N.of_nat (n_cols t) < 2 ^ 64 ->
  Forall (fun l => l < derived_numClasses p ls) tl ->
  let pl := zip (Classify m t) tl in
  outcome (main p)
  = Ok {| out_model := m;
          out_predictions :=
            if predictions p then Some (Classify m t) else None;
          out_score :=
            if score p then Some (ClassifyScores m t) else None |}
  /\ (forall e, e ∈ class_lines (derived_numClasses p ls) pl ->
        e ∈ log_of (main p))
  /\ Info (InfoTotal (match_count pl) (N.of_nat (n_cols t))
             (fdiv (match_count pl) (N.of_nat (n_cols t))))
     ∈ log_of (main p).
Proof.
  intros Hv Hl Ht Htest Hd Htl Hc Hp Hn Hall pl.
  rewrite (main_reaches p d ls tlog m Hv Hl Ht).
  unfold test_stage.
  rewrite (classify_test_spec Classify ClassifyScores p m _ t Htest).
  rewrite Hd, N.eqb_refl, Htl, (proj2 (Nat.eqb_eq _ _) Hc). cbn [negb].
  rewrite accuracy_in_bounds; [| congruence | now rewrite Hp | exact Hall].
  rewrite Hp. cbn [outcome log_of hand_back fst snd].
  split; [reflexivity |]. split.
  - intros e He. apply elem_of_app. right. apply elem_of_app. right.
    apply elem_of_app. right. apply elem_of_cons. right.
    apply elem_of_app. left. apply elem_of_app. now left.
  - apply elem_of_app. right. apply elem_of_app. right.
    apply elem_of_app. right. apply elem_of_cons. right.
    apply elem_of_app. left. apply elem_of_app. right. left.
Qed.

(** X18: the dimensionality a model expects is the row count of its
    parameter matrix minus one in unsigned arithmetic; for a saved model
    without parameters this is 2^64 - 1, so a run that only loads such a
    model stops on every test set, with that number in the message. *)
Theorem X18_model_without_parameters (p : Params) (m : LinearSVM) (t : mat) :
  valid p = true ->
  training p = None -> input_model p = Some m ->
  n_rows (Parameters m) = 0%nat ->
  test p = Some t ->
  N.of_nat (n_rows t) < 2 ^ 64 - 1 ->
  let f := FatalTestDim (N.of_nat (n_rows t)) 18446744073709551615 in
  main p = (advice p, Fatal f)
  /\ fatal_message f
     = ("Test data dimensionality (" +:+ pretty (N.of_nat (n_rows t))
        +:+ ") must be the same as the dimensionality of the training data "
        +:+ "(18446744073709551615)!")%string.
Proof.
  intros Hv Htr Hm Hrows Htest Hlt f. split.
  - assert (Hl : load p (default empty_mat (training p))
                 = ([], Ok (empty_mat, []))).
    { unfold load. rewrite load_labels_spec, Htr. reflexivity. }
    assert (Hs : training_stage p (default default_model (input_model p))
                   empty_mat [] (derived_numClasses p []) = ([], Ok m)).
    { unfold training_stage. rewrite train_spec, Htr, Hm. reflexivity. }
    rewrite (main_reaches p _ _ _ _ Hv Hl Hs). unfold test_stage.
    rewrite (classify_test_spec Classify ClassifyScores p m _ t Htest).
    rewrite Hrows.
    change (uword_pred 0) with 18446744073709551615.
    destruct (N.eqb_spec (N.of_nat (n_rows t)) 18446744073709551615)
      as [E | E]; [lia |].
    cbn [negb log_of outcome hand_back fst snd app]. now rewrite app_nil_r.
  - unfold f, fatal_message.
    replace (pretty 18446744073709551615) with "18446744073709551615"%string
      by (vm_compute; reflexivity).
    reflexivity.
Qed.

(** X19: a run classifies nothing but the test matrix it was given,
    computes scores only when [score] is asked for, and writes accuracy
    lines only when test labels were passed, one for each test point. *)
Theorem X19_classification_is_on_the_test_set (p : Params) :
  (forall t', CallClassify t' ∈ log_of (main p) -> test p = Some t')
  /\ (forall t', CallClassifyScore t' ∈ log_of (main p) ->
        test p = Some t' /\ score p = true)
  /\ (forall e, e ∈ log_of (main p) -> is_accuracy e = true ->
        exists t tl, test p = Some t /\ test_labels p = Some tl
          /\ n_cols t = length tl).
Proof.
  split; [| split].
  - intros t' Hin.
    destruct (main_event p _ Hin) as [H | [H | [[H _] | (m & nc & H)]]];
      try discriminate H.
    apply test_stage_events in H as (_ & _ & t & Ht & _ & Hc & _).
    destruct (Hc eq_refl) as [E | [E _]]; [| discriminate E].
    now injection E as ->.
  - intros t' Hin.
    destruct (main_event p _ Hin) as [H | [H | [[H _] | (m & nc & H)]]];
      try discriminate H.
    apply test_stage_events in H as (_ & _ & t & Ht & _ & Hc & _).
    destruct (Hc eq_refl) as [E | [E Hs]]; [discriminate E |].
    injection E as ->. auto.
  - intros e Hin Ha.
    destruct (main_event p _ Hin) as [H | [H | [[_ H] | (m & nc & H)]]].
    + destruct e as [| [] | | |]; discriminate.
    + destruct e as [| [] | | |]; discriminate.
    + congruence.
    + apply test_stage_events in H as (_ & _ & t & Ht & _ & _ & Hacc).
      destruct (Hacc Ha) as (tl & Htl & Hc & _). eauto.
Qed.

End Anatomy.

(** * The further properties on concrete runs *)

Lemma X6_nothing_to_run_on_witness :
  toy_main true no_params = ([], Fatal FatalNonePassed).
Proof.
  apply (X6_nothing_to_run_on toy_conv toy_default_model toy_Train
           toy_Classify toy_ClassifyScores true N.of_nat no_params);
    reflexivity.
Defined.

Lemma X8_ignored_optimizer_options_witness :
  Warn (WarnNotPsgd "step_size") ∈ log_of (toy_main false p_model_ignored)
  /\ ~ Warn (WarnNotPsgd "shuffle") ∈ log_of (toy_main false p_model_ignored).
Proof.
  pose proof (X8_ignored_optimizer_options toy_conv toy_default_model
                toy_Train toy_Classify toy_ClassifyScores false N.of_nat
                p_model_ignored eq_refl) as [H1 H2].
  split.
  - apply H1. split; discriminate.
  - intros H. apply H2 in H as [H _]. discriminate H.
Defined.

Lemma X9_psgd_without_openmp_witness :
  toy_main false p_train_psgd = (advice p_train_psgd, Fatal FatalOpenMP).
Proof.
  apply (X9_psgd_without_openmp toy_conv toy_default_model toy_Train
           toy_Classify toy_ClassifyScores false N.of_nat p_train_psgd
           (Mat 2 [[d_one; d_two]]) [0; 1]);
    try reflexivity.
  discriminate.
Defined.

Lemma X10_optimizer_settings_witness :
  (0 <= get_max_iterations p_train_psgd)%Z
  /\ ge_zero (get_tolerance p_train_psgd) = true
  /\ (get_optimizer p_train_psgd = "lbfgs"%string
      /\ ParallelSGD 10000 2 default_tolerance false d_one
         = L_BFGS (Z.to_N (get_max_iterations p_train_psgd))
             (get_tolerance p_train_psgd)
      \/ get_optimizer p_train_psgd = "psgd"%string /\ true = true
         /\ ge_zero (get_step_size p_train_psgd) = true
         /\ ParallelSGD 10000 2 default_tolerance false d_one
            = ParallelSGD (Z.to_N (get_max_iterations p_train_psgd))
                (N.of_nat (n_cols (Mat 2 [[d_one; d_two]])))
                (get_tolerance p_train_psgd) (negb (shuffle p_train_psgd))
                (get_step_size p_train_psgd)).
Proof.
  apply (X10_optimizer_settings toy_conv toy_default_model toy_Train
           toy_Classify toy_ClassifyScores true N.of_nat p_train_psgd
           (Mat 2 [[d_one; d_two]]) [0; 1] 2
           (ParallelSGD 10000 2 default_tolerance false d_one)).
  - vm_compute. right. left.
  - vm_compute. reflexivity.
Defined.

Lemma X11_separate_labels_kept_witness :
  train22 = train22 /\ [1; 0] = [1; 0] /\ n_cols train22 = length [1; 0].
Proof.
  apply (X11_separate_labels_kept toy_conv toy_default_model toy_Train
           toy_Classify toy_ClassifyScores false N.of_nat p_train_labels
           train22 [1; 0] train22 [1; 0] 2
           (L_BFGS 10000 default_tolerance)).
  - reflexivity.
  - reflexivity.
  - vm_compute. right. left.
Defined.

Lemma X12_labels_unread_without_training_witness :
  toy_main false p_model_labels = toy_main false p_model_only.
Proof.
  apply (X12_labels_unread_without_training toy_conv toy_default_model
           toy_Train toy_Classify toy_ClassifyScores false N.of_nat
           p_model_labels p_model_only).
  - reflexivity.
  - repeat split.
Defined.

Lemma X13_model_only_keeps_model_witness :
  Forall (fun e => is_train e = false) (log_of (toy_main false p_model_only))
  /\ (forall out, outcome (toy_main false p_model_only) = Ok out ->
        out_model out = toy_model3).
Proof.
  apply (X13_model_only_keeps_model toy_conv toy_default_model toy_Train
           toy_Classify toy_ClassifyScores false N.of_nat p_model_only
           toy_model3);
    reflexivity.
Defined.

Lemma X14_outputs_follow_saved_model_witness :
  exists out,
    outcome (toy_main false p_train_test) = Ok out
    /\ out_predictions out
       = Some (toy_Classify (out_model out) (Mat 1 [[d_one]])).
Proof.
  eexists. split; [reflexivity |].
  refine (proj1 (X14_outputs_follow_saved_model toy_conv toy_default_model
                   toy_Train toy_Classify toy_ClassifyScores false N.of_nat
                   p_train_test _ eq_refl)).
Defined.

Lemma X15_saved_model_is_trained_witness :
  exists out,
    outcome (toy_main false p_train) = Ok out
    /\ exists d ls opt,
         CallTrain d ls (derived_numClasses p_train ls) opt
         ∈ log_of (toy_main false p_train)
         /\ out_model out
            = toy_Train
                {| Lambda := get_lambda p_train;
                   Delta := get_delta p_train;
                   FitIntercept := negb (no_intercept p_train);
                   NumClasses := derived_numClasses p_train ls;
                   Parameters :=
                     Parameters
                       (default toy_default_model (input_model p_train)) |}
                d ls (derived_numClasses p_train ls) opt.
Proof.
  eexists. split; [reflexivity |].
  refine (X15_saved_model_is_trained toy_conv toy_default_model toy_Train
            toy_Classify toy_ClassifyScores false N.of_nat p_train _ _
            eq_refl).
  discriminate.
Defined.

Lemma X17_safe_accuracy_run_witness :
  Info (InfoTotal 1 1 (Quot (1 # 1))) ∈ log_of (toy_main false p_train_test).
Proof.
  refine (proj2 (proj2
            (X17_safe_accuracy_run toy_conv toy_default_model toy_Train
               toy_Classify toy_ClassifyScores false N.of_nat p_train_test
               (Mat 2 [[d_one; d_two]]) (Mat 1 [[d_one]]) [0; 1] [0]
               [Info InfoTrainLBFGS;
                CallTrain (Mat 2 [[d_one; d_two]]) [0; 1] 2
                  (lbfgs_of p_train_test)]
               (toy_Train (configured p_train_test toy_default_model 2)
                  (Mat 2 [[d_one; d_two]]) [0; 1] 2 (lbfgs_of p_train_test))
               _ _ _ _ _ _ _ _ _ _)));
    try reflexivity.
  repeat constructor.
Defined.

Lemma X18_model_without_parameters_witness :
  toy_main false p_empty_model_test
  = (advice p_empty_model_test,
     Fatal (FatalTestDim (N.of_nat (n_rows test21)) 18446744073709551615)).
Proof.
  refine (proj1 (X18_model_without_parameters toy_conv toy_default_model
                   toy_Train toy_Classify toy_ClassifyScores false N.of_nat
                   p_empty_model_test toy_default_model test21
                   _ _ _ _ _ _));
    reflexivity.
Defined.

Lemma X19_classification_is_on_the_test_set_witness :
  test p_train_test = Some (Mat 1 [[d_one]]).
Proof.
  apply (proj1 (X19_classification_is_on_the_test_set toy_conv
                  toy_default_model toy_Train toy_Classify toy_ClassifyScores
                  false N.of_nat p_train_test) (Mat 1 [[d_one]])).
  vm_compute. do 4 right. left.
Defined.

(** * The declared defaults *)

Section Defaults.

Variable conv_to_size_t : double -> size_t.
Variable default_model : LinearSVM.
Variable Train :
  LinearSVM -> mat -> list size_t -> size_t -> Optimizer -> LinearSVM.
Variable Classify : LinearSVM -> mat -> list size_t.
Variable ClassifyScores : LinearSVM -> mat -> mat.
Variable HAS_OPENMP : bool.
Variable threadShareSize : nat -> size_t.

(** X20: the defaults declared for [lambda], [delta], [tolerance],
    [max_iterations], [step_size], [number_of_classes] and [optimizer] pass
    every check; a run that leaves them all out trains, if it trains, with
    L-BFGS limited to 10000 iterations at tolerance 1e-10, for as many
    classes as the labels have distinct values. *)
Theorem X20_defaults_pass_the_checks (p : Params) :
  lambda p = None -> delta p = None -> tolerance p = None ->
  max_iterations p = None -> step_size p = None ->
  number_of_classes p = None -> optimizer p = None ->
  HasParam (training p) || HasParam (input_model p) = true ->
  valid p = true
  /\ (forall d ls nc opt,
        CallTrain d ls nc opt
        ∈ log_of (mlpackMain conv_to_size_t default_model Train Classify
                    ClassifyScores HAS_OPENMP threadShareSize p) ->
        opt = L_BFGS 10000 default_tolerance /\ nc = distinct_values ls).
Proof.
  intros Hl Hd Ht Hm Hs Hn Ho Hp. split.
  - apply valid_intro; trivial;
      unfold get_lambda, get_delta, get_tolerance, get_step_size,
        get_max_iterations, get_number_of_classes, get_optimizer;
      rewrite ?Hl, ?Hd, ?Ht, ?Hs, ?Hm, ?Hn, ?Ho; try reflexivity.
    left.
  - intros d ls nc opt Hin.
    apply train_event in Hin as (_ & _ & _ & -> & _ & Hc).
    assert (Hname : get_optimizer p = "lbfgs"%string).
    { unfold get_optimizer. now rewrite Ho. }
    split.
    + destruct Hc as [[-> _] | (_ & E & _)]; [| congruence].
      unfold lbfgs_of, get_max_iterations, get_tolerance.
      rewrite Hm, Ht. reflexivity.
    + unfold derived_numClasses, get_number_of_classes. rewrite Hn.
      apply NumberOfClasses_zero.
Qed.

End Defaults.

Lemma X20_defaults_pass_the_checks_witness : valid p_train = true.
Proof.
  refine (proj1 (X20_defaults_pass_the_checks toy_conv toy_default_model
                   toy_Train toy_Classify toy_ClassifyScores false N.of_nat
                   p_train _ _ _ _ _ _ _ _));
    reflexivity.
Defined.
